(** * brewery-map: the radius search route and the client's coordinate filter

    A shallow embedding of the API route behind [/api/breweries] (the [GET]
    handler with [toRad], [milesBetween] and [geocodeCityState]) and of the
    [breweriesWithCoords] memo of [app/components/MapView.tsx].

    JavaScript numbers are IEEE-754 binary64 values, modelled by Rocq's
    primitive floats.  The transcendental functions of [Math] and the
    string-to-number conversion belong to the JavaScript engine, not to the
    repository: they are the fields of the class [Runtime], and every result
    below holds for all runtimes unless it names the hypothesis it needs. *)

From Stdlib Require Import ZArith List String Ascii Bool Floats Lia.
From Stdlib Require Uint63.
Import ListNotations.

Set Implicit Arguments.
Set Warnings "-inexact-float".

(** ** JavaScript values *)

Module JS.

Definition number := float.

(** [Math.PI], the double nearest to pi. *)
Definition Math_PI : number := 0x1.921fb54442d18p+1%float.

Definition isNaN (x : number) : bool := negb (x =? x)%float.

(** [x > y] and [x <= y] on numbers: false as soon as one side is NaN. *)
Definition gt (x y : number) : bool := (y <? x)%float.
Definition le (x y : number) : bool := (x <=? y)%float.

(** [Math.min(x, y)]: NaN if either is NaN, and -0 is below +0. *)
Definition Math_min (x y : number) : number :=
  if isNaN x || isNaN y then nan
  else if (x <? y)%float then x
  else if (y <? x)%float then y
  else match classify x with NZero => x | _ => y end.

(** [Math.sqrt] is the IEEE square root. *)
Definition Math_sqrt (x : number) : number := PrimFloat.sqrt x.

(** What the engine supplies.  [pow2 x] is [x ** 2], the only exponent the
    sources use. *)
Class Runtime : Type := {
  Number_of_string : string -> number;
  Math_sin : number -> number;
  Math_cos : number -> number;
  Math_asin : number -> number;
  pow2 : number -> number
}.

(** The values a coordinate field of a directory record can hold
    ([string | number | null] in MapView.tsx, [number | null] in the route;
    the JSON body is cast without validation). *)
Inductive value : Type :=
| VNull
| VNum (n : number)
| VStr (s : string).

Definition typeof (v : value) : string :=
  match v with
  | VNull => "object"
  | VNum _ => "number"
  | VStr _ => "string"
  end.

(** Truthiness of a string: every string but the empty one. *)
Definition truthy_string (s : string) : bool :=
  match s with EmptyString => false | String _ _ => true end.

(** ToBoolean: null, NaN, +0, -0 and the empty string are falsy. *)
Definition truthy (v : value) : bool :=
  match v with
  | VNull => false
  | VNum n => negb (isNaN n || (n =? 0)%float)
  | VStr s => truthy_string s
  end.

(** [Number(v)]. *)
Definition Number {RT : Runtime} (v : value) : number :=
  match v with
  | VNull => 0%float
  | VNum n => n
  | VStr s => Number_of_string s
  end.

(** [p || d] for the nullable string [searchParams.get] returns. *)
Definition or_default (p : option string) (d : string) : string :=
  match p with
  | Some s => if truthy_string s then s else d
  | None => d
  end.

End JS.

Import JS.

(** ** The outside world: HTTP exchanges as an action tree

    [await fetch(...)] either rejects (no response: the transport failed) or
    resolves to a response with a status; [await res.json()] rejects when the
    body is not JSON.  A handler is a tree whose inner nodes are the two
    requests the route can send, so that the number and order of requests is
    part of what a theorem can speak about. *)

Module Http.

(** The request [geocodeCityState] builds (route, lines 33-42). *)
Record GeoRequest : Type := {
  geo_url : string;
  geo_q : string;
  geo_format : string;
  geo_limit : string;
  geo_user_agent : string
}.

(** One element of the geocoder's array, at its declared type. *)
Record GeoHit : Type := { lat : string; lon : string }.

(** The [Brewery] record type; the two coordinate fields hold whatever the
    directory's JSON holds. *)
Record Brewery : Type := {
  id : string;
  name : string;
  brewery_type : string;
  address_1 : option string;
  city : string;
  state_province : string;
  latitude : value;
  longitude : value;
  website_url : option string
}.

(** The directory request (route, lines 78-92): the query parameters
    before they are rendered into the URL ([per_page] and [by_dist] are
    kept as numbers). *)
Record DirRequest : Type := {
  dir_url : string;
  per_page : number;
  by_dist : option (number * number);
  by_city : option string;
  by_state : option string;
  dir_accept : string
}.

Record response (B : Type) : Type := {
  status : Z;
  body : option B     (* [None]: [res.json()] rejects *)
}.

Inductive fetched (B : Type) : Type :=
| NetworkError                 (* [fetch] rejects *)
| Responded (r : response B).

Arguments NetworkError {B}.

(** [res.ok]: the status is in the range 200-299. *)
Definition ok {B} (r : response B) : bool :=
  ((200 <=? status r) && (status r <=? 299))%Z.

Inductive action (A : Type) : Type :=
| Return (a : A)
| Throw
| AwaitGeocode (rq : GeoRequest) (k : fetched (list GeoHit) -> action A)
| AwaitDirectory (rq : DirRequest) (k : fetched (list Brewery) -> action A).

Arguments Throw {A}.

Fixpoint bind {A B} (m : action A) (f : A -> action B) : action B :=
  match m with
  | Return a => f a
  | Throw => Throw
  | AwaitGeocode rq k => AwaitGeocode rq (fun r => bind (k r) f)
  | AwaitDirectory rq k => AwaitDirectory rq (fun r => bind (k r) f)
  end.

Definition settle {A B} (r : fetched B) (k : response B -> action A) : action A :=
  match r with
  | NetworkError => Throw
  | Responded res => k res
  end.

Definition fetchGeocode (rq : GeoRequest) : action (response (list GeoHit)) :=
  AwaitGeocode rq (fun r => settle r (@Return _)).

Definition fetchDirectory (rq : DirRequest) : action (response (list Brewery)) :=
  AwaitDirectory rq (fun r => settle r (@Return _)).

(** [await res.json()]. *)
Definition json {B} (r : response B) : action B :=
  match body r with
  | Some data => Return data
  | None => Throw
  end.

(** Running a tree against the two collaborators: the outcome and the
    requests sent, in order. *)
Record World : Type := {
  geocoder : GeoRequest -> fetched (list GeoHit);
  directory : DirRequest -> fetched (list Brewery)
}.

Inductive call : Type :=
| GeocodeCall (rq : GeoRequest)
| DirectoryCall (rq : DirRequest).

Inductive outcome (A : Type) : Type :=
| Resolved (a : A)
| Rejected.

Arguments Rejected {A}.

Fixpoint run {A} (w : World) (p : action A) : outcome A * list call :=
  match p with
  | Return a => (Resolved a, [])
  | Throw => (Rejected, [])
  | AwaitGeocode rq k =>
      let (o, t) := run w (k (geocoder w rq)) in (o, GeocodeCall rq :: t)
  | AwaitDirectory rq k =>
      let (o, t) := run w (k (directory w rq)) in (o, DirectoryCall rq :: t)
  end.

Definition is_directory_call (c : call) : bool :=
  match c with DirectoryCall _ => true | GeocodeCall _ => false end.

End Http.

Import Http.

Declare Scope action_scope.
Delimit Scope action_scope with action.
Notation "x <- m ;; k" := (bind m (fun x => k))
  (at level 100, m at next level, right associativity) : action_scope.

(** ** The API route: [GET /api/breweries] *)

Module Route.
Section WithRuntime.

Context {RT : Runtime}.
Local Open Scope float_scope.
Local Open Scope action_scope.

Definition toRad (n : number) : number := (n * Math_PI) / 180.

(** Haversine distance in miles (lines 8-18). *)
Definition milesBetween (lat1 lon1 lat2 lon2 : number) : number :=
  let R := 3958.7613 in
  let dLat := toRad (lat2 - lat1) in
  let dLon := toRad (lon2 - lon1) in
  let a :=
    pow2 (Math_sin (dLat / 2)) +
    Math_cos (toRad lat1) * Math_cos (toRad lat2) * pow2 (Math_sin (dLon / 2)) in
  2 * R * Math_asin (Math_sqrt a).

(** Lines 32-50. *)
Definition geocodeCityState (city state : string)
  : action (option (number * number)) :=
  let q := (city ++ ", " ++ state ++ ", USA")%string in
  res <- fetchGeocode {|
           geo_url := "https://nominatim.openstreetmap.org/search";
           geo_q := q; geo_format := "json"; geo_limit := "1";
           geo_user_agent := "brewery-map/1.0 (contact: example@example.com)" |} ;;
  if negb (ok res) then Return None
  else
    data <- json res ;;
    match data with
    | [] => Return None
    | d0 :: _ => Return (Some (Number_of_string (lat d0), Number_of_string (lon d0)))
    end.

(** The query string of the inbound request: what [searchParams.get]
    returns for each name. *)
Record Query : Type := {
  q_city : option string;
  q_state : option string;
  q_lat : option string;
  q_lon : option string;
  q_radius : option string;
  q_per_page : option string
}.

Record Origin : Type := {
  o_lat : number;
  o_lon : number;
  o_radiusMiles : number
}.

(** The JSON bodies the handler answers with. *)
Inductive Payload : Type :=
| ErrorBody (error : string)
| BreweriesBody (origin : option Origin) (breweries : list Brewery).

Record NextResponse : Type := {
  res_status : Z;
  res_body : Payload
}.

(** [p ? Number(p) : null]. *)
Definition number_or_null (p : option string) : option number :=
  match p with
  | Some s => if truthy_string s then Some (Number_of_string s) else None
  | None => None
  end.

Definition is_null {A} (o : option A) : bool :=
  match o with None => true | Some _ => false end.

(** The callback of [data.filter] (lines 105-109).  Past the [typeof]
    guard both fields are numbers, and are passed on as they are; the last
    branch is never reached. *)
Definition inRadius (originLat originLon radiusMiles : number) (b : Brewery) : bool :=
  if negb (typeof (latitude b) =? "number")%string
     || negb (typeof (longitude b) =? "number")%string
  then false
  else
    match latitude b, longitude b with
    | VNum blat, VNum blon =>
        let d := milesBetween originLat originLon blat blon in
        le d radiusMiles
    | _, _ => false
    end.

(** The statuses a response may not have a body with (101, 103, 204, 205
    and 304, the null body statuses of the Fetch standard). *)
Definition null_body_status (st : Z) : bool :=
  ((st =? 101) || (st =? 103) || (st =? 204) || (st =? 205) || (st =? 304))%Z.

(** [NextResponse.json(body, { status })] constructs a [Response] with a
    body, and the constructor throws for a status outside 200-599
    (RangeError) and for a null body status (TypeError). *)
Definition can_carry_body (st : Z) : bool :=
  ((200 <=? st) && (st <=? 599))%Z && negb (null_body_status st).

Definition NextResponse_json (payload : Payload) (st : Z) : action NextResponse :=
  if can_carry_body st
  then Return {| res_status := st; res_body := payload |}
  else Throw.

(** The directory URL (lines 78-88): sorted by distance from the origin
    when both of its coordinates are known, filtered by city and state
    otherwise. *)
Definition directoryUrl (perPage : number) (originLat originLon : option number)
           (city state : string) : DirRequest :=
  match originLat, originLon with
  | Some olat, Some olon =>
      {| dir_url := "https://api.openbrewerydb.org/v1/breweries";
         per_page := perPage; by_dist := Some (olat, olon);
         by_city := None; by_state := None;
         dir_accept := "application/json" |}
  | _, _ =>
      {| dir_url := "https://api.openbrewerydb.org/v1/breweries";
         per_page := perPage; by_dist := None;
         by_city := Some city; by_state := Some state;
         dir_accept := "application/json" |}
  end.

(** Lines 52-118. *)
Definition GET (req : Query) : action NextResponse :=
  let city := or_default (q_city req) "Denver" in
  let state := or_default (q_state req) "Colorado" in
  let latParam := q_lat req in
  let lonParam := q_lon req in
  let radiusParam := or_default (q_radius req) "30" in
  let perPageParam := or_default (q_per_page req) "200" in
  let radiusMiles := Number_of_string radiusParam in
  let perPage := Math_min (Number_of_string perPageParam) 200 in
  let originLat0 := number_or_null latParam in
  let originLon0 := number_or_null lonParam in
  origin <-
    (if (is_null originLat0 || is_null originLon0) && gt radiusMiles 0 then
       geo <- geocodeCityState city state ;;
       match geo with
       | Some (glat, glon) => Return (Some glat, Some glon)
       | None => Return (originLat0, originLon0)
       end
     else Return (originLat0, originLon0)) ;;
  let '(originLat, originLon) := origin in
  let url := directoryUrl perPage originLat originLon city state in
  res <- fetchDirectory url ;;
  if negb (ok res) then
    NextResponse_json (ErrorBody "Failed to fetch breweries") (status res)
  else
    data <- json res ;;
    match originLat, originLon with
    | Some olat, Some olon =>
        if gt radiusMiles 0 then
          let filtered := filter (inRadius olat olon radiusMiles) data in
          Return {| res_status := 200;
                    res_body := BreweriesBody
                      (Some {| o_lat := olat; o_lon := olon;
                               o_radiusMiles := radiusMiles |})
                      filtered |}
        else Return {| res_status := 200; res_body := BreweriesBody None data |}
    | _, _ => Return {| res_status := 200; res_body := BreweriesBody None data |}
    end.

(** *** The two phases of [GET], named for the proofs

    [resolveOrigin] is lines 66-76, [answer] lines 78-117; [GET] is the
    first followed by the second (lemma [GET_phases]). *)

Definition resolveOrigin (city state : string) (radiusMiles : number)
           (originLat0 originLon0 : option number)
  : action (option number * option number) :=
  if (is_null originLat0 || is_null originLon0) && gt radiusMiles 0 then
    geo <- geocodeCityState city state ;;
    match geo with
    | Some (glat, glon) => Return (Some glat, Some glon)
    | None => Return (originLat0, originLon0)
    end
  else Return (originLat0, originLon0).

Definition answer (city state : string) (radiusMiles perPage : number)
           (originLat originLon : option number) : action NextResponse :=
  let url := directoryUrl perPage originLat originLon city state in
  res <- fetchDirectory url ;;
  if negb (ok res) then
    NextResponse_json (ErrorBody "Failed to fetch breweries") (status res)
  else
    data <- json res ;;
    match originLat, originLon with
    | Some olat, Some olon =>
        if gt radiusMiles 0 then
          let filtered := filter (inRadius olat olon radiusMiles) data in
          Return {| res_status := 200;
                    res_body := BreweriesBody
                      (Some {| o_lat := olat; o_lon := olon;
                               o_radiusMiles := radiusMiles |})
                      filtered |}
        else Return {| res_status := 200; res_body := BreweriesBody None data |}
    | _, _ => Return {| res_status := 200; res_body := BreweriesBody None data |}
    end.

(** What [geocodeCityState] settles to, given the geocoder's reply, and
    what [answer] settles to, given the directory's (lemmas
    [run_geocodeCityState] and [run_answer]). *)
Definition geocoded (r : fetched (list GeoHit)) : outcome (option (number * number)) :=
  match r with
  | NetworkError => Rejected
  | Responded res =>
      if negb (ok res) then Resolved None
      else match body res with
           | None => Rejected
           | Some [] => Resolved None
           | Some (d0 :: _) =>
               Resolved (Some (Number_of_string (lat d0), Number_of_string (lon d0)))
           end
  end.

Definition answered (radiusMiles : number) (originLat originLon : option number)
           (r : fetched (list Brewery)) : outcome NextResponse :=
  match r with
  | NetworkError => Rejected
  | Responded res =>
      if negb (ok res) then
        if can_carry_body (status res) then
          Resolved {| res_status := status res;
                      res_body := ErrorBody "Failed to fetch breweries" |}
        else Rejected
      else match body res with
           | None => Rejected
           | Some data =>
               match originLat, originLon with
               | Some olat, Some olon =>
                   if gt radiusMiles 0 then
                     Resolved {| res_status := 200;
                                 res_body := BreweriesBody
                                   (Some {| o_lat := olat; o_lon := olon;
                                            o_radiusMiles := radiusMiles |})
                                   (filter (inRadius olat olon radiusMiles) data) |}
                   else Resolved {| res_status := 200;
                                    res_body := BreweriesBody None data |}
               | _, _ => Resolved {| res_status := 200;
                                     res_body := BreweriesBody None data |}
               end
           end
  end.

(** The origin after line 76, given what geocoding returned. *)
Definition originAfter (originLat0 originLon0 : option number)
           (geo : option (number * number)) : option number * option number :=
  match geo with
  | Some (glat, glon) => (Some glat, Some glon)
  | None => (originLat0, originLon0)
  end.

(** The haversine term [a] of [milesBetween]. *)
Definition haversine (lat1 lon1 lat2 lon2 : number) : number :=
  pow2 (Math_sin (toRad (lat2 - lat1) / 2)) +
  Math_cos (toRad lat1) * Math_cos (toRad lat2) *
  pow2 (Math_sin (toRad (lon2 - lon1) / 2)).

(** The locals of [GET] that depend on the query alone. *)
Definition cityOf (req : Query) : string := or_default (q_city req) "Denver".
Definition stateOf (req : Query) : string := or_default (q_state req) "Colorado".
Definition radiusMilesOf (req : Query) : number :=
  Number_of_string (or_default (q_radius req) "30").
Definition perPageOf (req : Query) : number :=
  Math_min (Number_of_string (or_default (q_per_page req) "200")) 200.

(** The request [geocodeCityState city state] sends. *)
Definition geocodeUrl (city state : string) : GeoRequest :=
  {| geo_url := "https://nominatim.openstreetmap.org/search";
     geo_q := (city ++ ", " ++ state ++ ", USA")%string;
     geo_format := "json"; geo_limit := "1";
     geo_user_agent := "brewery-map/1.0 (contact: example@example.com)" |}.

(** A parameter was supplied: [searchParams.get] returned a non-empty
    string. *)
Definition supplied (p : option string) : bool := negb (is_null (number_or_null p)).


End WithRuntime.
End Route.

(** ** app/components/MapView.tsx *)

Module MapView.
Section WithRuntime.

Context {RT : Runtime}.
Local Open Scope float_scope.

(** The client's copy of the distance helper (lines 31-50). *)
Definition milesBetween (lat1 lon1 lat2 lon2 : number) : number :=
  let toRad := fun n : number => (n * Math_PI) / 180 in
  let R := 3958.7613 in
  let dLat := toRad (lat2 - lat1) in
  let dLon := toRad (lon2 - lon1) in
  let a :=
    pow2 (Math_sin (dLat / 2)) +
    Math_cos (toRad lat1) *
      Math_cos (toRad lat2) *
      pow2 (Math_sin (dLon / 2)) in
  2 * R * Math_asin (Math_sqrt a).

(** [b.latitude && b.longitude], as the condition [filter] tests. *)
Definition hasCoords (b : Brewery) : bool :=
  truthy (if truthy (latitude b) then longitude b else latitude b).

(** [{ ...b, latitude: Number(b.latitude), longitude: Number(b.longitude) }]. *)
Definition withNumbers (b : Brewery) : Brewery :=
  {| id := id b; name := name b; brewery_type := brewery_type b;
     address_1 := address_1 b; city := city b;
     state_province := state_province b;
     latitude := VNum (Number (latitude b));
     longitude := VNum (Number (longitude b));
     website_url := website_url b |}.

(** Lines 237-245. *)
Definition breweriesWithCoords (breweries : list Brewery) : list Brewery :=
  map withNumbers (filter hasCoords breweries).

End WithRuntime.
End MapView.

(** ** A reference engine

    A small, executable [Runtime] on which the model can be run.  It is not a
    production engine: numerals are plain decimals ([-12.5], [30]) whose
    digits stay below 2^53, converted exactly as StringToNumber converts them (one
    correctly rounded division); it reads no exponent, hexadecimal, white
    space or [Infinity], and answers NaN there; sine, cosine and
    arcsine are polynomial approximations, good to a few units in the last
    place on the arguments in-range coordinates give rise to, and exact at
    the arguments 0 and pi/2 where an engine's results are exact.  No general
    theorem depends on it. *)

Module Ref.

Local Open Scope float_scope.

Definition of_Z (z : Z) : float := PrimFloat.of_uint63 (Uint63.of_Z z).
Definition of_nat (n : nat) : float := of_Z (Z.of_nat n).

Definition digit (c : ascii) : option Z :=
  let n := Z.of_N (N_of_ascii c) in
  if ((48 <=? n) && (n <=? 57))%Z then Some (n - 48)%Z else None.

(** Mantissa and number of fraction digits of [digits [. digits]]. *)
Fixpoint scan (s : string) (point seen : bool) (m k : Z) : option (Z * Z) :=
  match s with
  | EmptyString => if seen then Some (m, k) else None
  | String c rest =>
      if (c =? ".")%char then
        if point then None else scan rest true seen m k
      else
        match digit c with
        | Some d => scan rest point true (10 * m + d)%Z (if point then (k + 1)%Z else k)
        | None => None
        end
  end.

Fixpoint pow10 (k : nat) : float :=
  match k with
  | O => 1
  | S j => 10 * pow10 j
  end.

Definition unsigned (s : string) : float :=
  match scan s false false 0 0 with
  | Some (m, k) =>
      if ((m <? 2 ^ 53) && (k <=? 22))%Z then of_Z m / pow10 (Z.to_nat k)
      else nan
  | None => nan
  end.

Definition Number_of_string (s : string) : float :=
  match s with
  | EmptyString => 0
  | String c rest =>
      if (c =? "-")%char then - unsigned rest
      else if (c =? "+")%char then unsigned rest
      else unsigned s
  end.

(** [sin x = x * P (x * x)] near 0. *)
Fixpoint sin_horner (i : nat) (z acc : float) : float :=
  match i with
  | O => acc
  | S j => sin_horner j z (1 - z / (of_nat (2 * i) * of_nat (2 * i + 1)) * acc)
  end.

Definition kernel_sin (x : float) : float := x * sin_horner 14 (x * x) 1.

Fixpoint cos_horner (i : nat) (z acc : float) : float :=
  match i with
  | O => acc
  | S j => cos_horner j z (1 - z / (of_nat (2 * i - 1) * of_nat (2 * i)) * acc)
  end.

Definition kernel_cos (x : float) : float := cos_horner 14 (x * x) 1.

(** Sine, reduced around pi/2 and pi. *)
Definition sin (x : float) : float :=
  let ax := abs x in
  if ax <=? Math_PI / 4 then kernel_sin x
  else
    let r := if ax <=? 3 * Math_PI / 4 then kernel_cos (ax - Math_PI / 2)
             else kernel_sin (Math_PI - ax) in
    if x <? 0 then - r else r.

Definition cos (x : float) : float := kernel_cos x.

Fixpoint asin_horner (i : nat) (z acc : float) : float :=
  match i with
  | O => acc
  | S j => asin_horner j z
             (1 + z * (of_nat (2 * i - 1) * of_nat (2 * i - 1)
                       / (of_nat (2 * i) * of_nat (2 * i + 1))) * acc)
  end.

Definition asin_small (x : float) : float := x * asin_horner 30 (x * x) 1.

(** Arcsine: the series up to 1/2, the half-angle identity beyond, NaN
    outside [-1, 1]. *)
Definition asin (x : float) : float :=
  let ax := abs x in
  if ax <=? 0.5 then asin_small x
  else if ax <=? 1 then
    let r := Math_PI / 2 - 2 * asin_small (PrimFloat.sqrt ((1 - ax) / 2)) in
    if x <? 0 then - r else r
  else nan.

#[export] Instance runtime : Runtime := {|
  JS.Number_of_string := Number_of_string;
  Math_sin := sin;
  Math_cos := cos;
  Math_asin := asin;
  pow2 := fun x => x * x
|}.

End Ref.

(** ** Scenarios

    Concrete queries, records and collaborators, run on the reference
    engine. *)

Module Scenario.

Import Route.
Local Open Scope string_scope.
Local Open Scope float_scope.

Definition brewery (i : string) (la lo : value) : Brewery :=
  {| id := i; name := i; brewery_type := "micro"; address_1 := None;
     city := "Denver"; state_province := "Colorado";
     latitude := la; longitude := lo; website_url := None |}.

Definition denver : Brewery := brewery "denver" (VNum 39.7392) (VNum (-104.9903)).
Definition losAngeles : Brewery := brewery "la" (VNum 34.0522) (VNum (-118.2437)).
Definition denverText : Brewery := brewery "text" (VStr "39.7392") (VStr "-104.9903").
Definition unlocated : Brewery := brewery "none" VNull VNull.
Definition equator : Brewery := brewery "equator" (VNum 0) (VNum 36.8).
Definition blank : Brewery := brewery "blank" (VStr EmptyString) (VStr "-104.9903").

Definition query (la lo r : option string) : Query :=
  {| q_city := None; q_state := None; q_lat := la; q_lon := lo;
     q_radius := r; q_per_page := None |}.

Definition byCity : Query := query None None None.
Definition byCoords : Query := query (Some "39.7392") (Some "-104.9903") (Some "30").
Definition byCoordsRadius0 : Query := query (Some "39.7392") (Some "-104.9903") (Some "0").

Definition replying {A B} (st : Z) (b : option B) : A -> fetched B :=
  fun _ => Responded {| status := st; body := b |}.

Definition unreachable {A B} : A -> fetched B := fun _ => NetworkError.

Definition denverHit : GeoHit := {| lat := "39.74"; lon := "-104.99" |}.

Definition catalogue : list Brewery := [denver; losAngeles; denverText; unlocated].

(** Geocoding finds Denver; the directory serves the catalogue. *)
Definition healthy : World :=
  {| geocoder := replying 200 (Some [denverHit]);
     directory := replying 200 (Some catalogue) |}.

(** Geocoding finds nothing. *)
Definition noMatch : World :=
  {| geocoder := replying 200 (Some []);
     directory := replying 200 (Some catalogue) |}.

(** Geocoding answers 429. *)
Definition throttled : World :=
  {| geocoder := replying 429 None;
     directory := replying 200 (Some catalogue) |}.

(** The geocoder cannot be reached. *)
Definition geocoderDown : World :=
  {| geocoder := unreachable;
     directory := replying 200 (Some catalogue) |}.

(** The directory answers 503. *)
Definition directoryDown : World :=
  {| geocoder := replying 200 (Some [denverHit]);
     directory := replying 503 None |}.

End Scenario.

(** ** Notions for stating what a run of the handler does *)

Module Facts.

(** [xs] is [ys] with some elements left out, order kept. *)
Inductive Subseq {A : Type} : list A -> list A -> Prop :=
| Subseq_nil : Subseq [] []
| Subseq_skip (y : A) (xs ys : list A) : Subseq xs ys -> Subseq xs (y :: ys)
| Subseq_keep (x : A) (xs ys : list A) : Subseq xs ys -> Subseq (x :: xs) (x :: ys).

(** Neither NaN nor an infinity. *)
Definition isFinite (x : number) : bool := (abs x <? infinity)%float.

(** Awaiting this reply throws: [fetch] rejected, or the status is a
    success and the body is not JSON.  The body of a non-success reply is
    never read. *)
Definition rejects {B : Type} (r : fetched B) : bool :=
  match r with
  | NetworkError => true
  | Responded res => ok res && Route.is_null (body res)
  end.

(** A non-success reply whose status the error response cannot carry:
    building that response throws. *)
Definition unanswerable {B : Type} (r : fetched B) : bool :=
  match r with
  | NetworkError => false
  | Responded res => negb (ok res) && negb (Route.can_carry_body (status res))
  end.

Definition is_geocode_call (c : call) : bool :=
  match c with GeocodeCall _ => true | DirectoryCall _ => false end.

(** A query parameter given as the empty string, read as not given. *)
Definition absentIfBlank (p : option string) : option string :=
  match p with
  | Some s => if truthy_string s then Some s else None
  | None => None
  end.

Section WithRuntime.

Context {RT : Runtime}.
Import Route.

(** The test of line 70: a coordinate is missing and the radius is
    positive. *)
Definition needsGeocode (req : Query) : bool :=
  (is_null (number_or_null (q_lat req)) || is_null (number_or_null (q_lon req)))
  && gt (radiusMilesOf req) 0%float.

(** The origin after line 76, in a given world (the supplied pair when
    geocoding is not needed, misses or rejects). *)
Definition originIn (w : World) (req : Query) : option number * option number :=
  let supplied := (number_or_null (q_lat req), number_or_null (q_lon req)) in
  if needsGeocode req then
    match geocoded (geocoder w (geocodeUrl (cityOf req) (stateOf req))) with
    | Resolved geo => originAfter (fst supplied) (snd supplied) geo
    | Rejected => supplied
    end
  else supplied.

(** The directory request of that world. *)
Definition directoryUrlIn (w : World) (req : Query) : DirRequest :=
  directoryUrl (perPageOf req) (fst (originIn w req)) (snd (originIn w req))
               (cityOf req) (stateOf req).

(** Geocoding is attempted and its await throws. *)
Definition geocodingRejects (w : World) (req : Query) : bool :=
  needsGeocode req && rejects (geocoder w (geocodeUrl (cityOf req) (stateOf req))).

Definition withoutBlanks (req : Query) : Query :=
  {| q_city := absentIfBlank (q_city req);
     q_state := absentIfBlank (q_state req);
     q_lat := absentIfBlank (q_lat req);
     q_lon := absentIfBlank (q_lon req);
     q_radius := absentIfBlank (q_radius req);
     q_per_page := absentIfBlank (q_per_page req) |}.

End WithRuntime.
End Facts.

(** ** app/components/MapView.tsx: state, fetching and the map helpers

    The component's state, its two fetch functions, the location button and
    the two effect helpers.  What [await fetch] followed by
    [await res.json()] yields is a parameter, as the collaborators of the
    route are; the state a function leaves is the state after its last
    [set...] call. *)

Module Client.

Local Open Scope string_scope.
Local Open Scope list_scope.

(** [Math.max(x, y)]: NaN if either is NaN, and +0 is above -0. *)
Definition Math_max (x y : number) : number :=
  if isNaN x || isNaN y then nan
  else if (y <? x)%float then x
  else if (x <? y)%float then y
  else match classify x with NZero => y | _ => x end.

(** The [useState] cells of [MapView]. *)
Record UiState : Type := {
  ui_breweries : list Brewery;
  ui_loading : bool;
  ui_city : string;
  ui_stateName : string;
  ui_error : option string;
  ui_userLoc : option (number * number);
  ui_selected : option (number * number)
}.

Definition initial : UiState :=
  {| ui_breweries := []; ui_loading := false;
     ui_city := "Denver"; ui_stateName := "Colorado";
     ui_error := None; ui_userLoc := None; ui_selected := None |}.

(** The JSON value [res.json()] resolves to, as far as lines 191 and 221
    look at it. *)
Inductive ApiJson : Type :=
| JArray (l : list Brewery)                   (* an array *)
| JObject (breweries : option (list Brewery)) (* an object, with its
                                                 [breweries] property unless
                                                 that is missing or null *)
| JNull                                       (* [null] *)
| JScalar.                                    (* a number, string or boolean *)

Inductive ApiReply : Type :=
| ApiThrew                       (* [fetch] or [res.json()] rejected *)
| ApiJsonOf (j : ApiJson).

(** [Array.isArray(json) ? json : json.breweries ?? []]; reading a
    property of [null] throws. *)
Definition breweriesOf (j : ApiJson) : option (list Brewery) :=
  match j with
  | JArray l => Some l
  | JObject (Some l) => Some l
  | JObject None => Some []
  | JNull => None
  | JScalar => Some []
  end.

(** The end of both fetch functions: [setBreweries] in the [try], the
    [catch], and the [finally]. *)
Definition settleFetch (reply : ApiReply) (s : UiState) : UiState :=
  match match reply with ApiThrew => None | ApiJsonOf j => breweriesOf j end with
  | Some l =>
      {| ui_breweries := l; ui_loading := false;
         ui_city := ui_city s; ui_stateName := ui_stateName s;
         ui_error := ui_error s; ui_userLoc := ui_userLoc s;
         ui_selected := ui_selected s |}
  | None =>
      {| ui_breweries := []; ui_loading := false;
         ui_city := ui_city s; ui_stateName := ui_stateName s;
         ui_error := Some "Error fetching breweries.";
         ui_userLoc := ui_userLoc s; ui_selected := ui_selected s |}
  end.

(** The state while the request is in flight: [setLoading(true)],
    [setError(null)] and [setUserLoc(loc)]. *)
Definition inFlight (loc : option (number * number)) (s : UiState) : UiState :=
  {| ui_breweries := ui_breweries s; ui_loading := true;
     ui_city := ui_city s; ui_stateName := ui_stateName s;
     ui_error := None; ui_userLoc := loc; ui_selected := ui_selected s |}.

(** The query string of [fetchBreweries] (lines 182-186). *)
Definition cityQuery (nextCity nextState : string) : Route.Query :=
  {| Route.q_city := Some nextCity; Route.q_state := Some nextState;
     Route.q_lat := None; Route.q_lon := None;
     Route.q_radius := None; Route.q_per_page := Some "50" |}.

(** Lines 176-198. *)
Definition fetchBreweries (api : Route.Query -> ApiReply)
           (nextCity nextState : string) (s : UiState) : UiState :=
  settleFetch (api (cityQuery nextCity nextState)) (inFlight None s).

Section WithPrinter.

(** [String(n)] is the engine's. *)
Variable String_of_number : number -> string.

(** The query string of [fetchBreweriesByCoords] (lines 211-216). *)
Definition coordsQuery (lat lon radiusMiles : number) : Route.Query :=
  {| Route.q_city := None; Route.q_state := None;
     Route.q_lat := Some (String_of_number lat);
     Route.q_lon := Some (String_of_number lon);
     Route.q_radius := Some (String_of_number radiusMiles);
     Route.q_per_page := Some "200" |}.

(** Lines 201-228. *)
Definition fetchBreweriesByCoords (api : Route.Query -> ApiReply)
           (lat lon radiusMiles : number) (s : UiState) : UiState :=
  settleFetch (api (coordsQuery lat lon radiusMiles))
              (inFlight (Some (lat, lon)) s).

(** What the browser does with [getCurrentPosition]. *)
Inductive Geolocation : Type :=
| Unsupported                      (* no [navigator.geolocation] *)
| Refused                          (* the error callback is called *)
| Position (lat lon : number).     (* the success callback is called *)

(** The click handler of "Use my location" (lines 286-303). *)
Definition useMyLocation (api : Route.Query -> ApiReply) (geo : Geolocation)
           (s : UiState) : UiState :=
  match geo with
  | Unsupported =>
      {| ui_breweries := ui_breweries s; ui_loading := ui_loading s;
         ui_city := ui_city s; ui_stateName := ui_stateName s;
         ui_error := Some "Geolocation not supported.";
         ui_userLoc := ui_userLoc s; ui_selected := ui_selected s |}
  | Refused =>
      {| ui_breweries := ui_breweries s; ui_loading := ui_loading s;
         ui_city := ui_city s; ui_stateName := ui_stateName s;
         ui_error := Some "Could not get your location.";
         ui_userLoc := ui_userLoc s; ui_selected := ui_selected s |}
  | Position lat lon => fetchBreweriesByCoords api lat lon 30%float s
  end.

End WithPrinter.

Section WithRuntime.

Context {RT : Runtime}.

(** [[p.latitude, p.longitude]] for an element of [breweriesWithCoords],
    whose two fields are numbers ([Number] leaves a number as it is). *)
Definition latLng (p : Brewery) : number * number :=
  (Number (latitude p), Number (longitude p)).

(** The effect of [FitBounds] (lines 77-87): the points handed to
    [map.fitBounds], or [None] when it returns without fitting. *)
Definition fitBounds (points : list Brewery) (origin : option (number * number))
  : option (list (number * number)) :=
  let all := map latLng points
             ++ match origin with Some o => [o] | None => [] end in
  match all with
  | [] => None
  | _ :: _ => Some all
  end.

End WithRuntime.

(** The effect of [FlyTo] (lines 98-101): the centre and zoom handed to
    [map.setView], given the map's current zoom. *)
Definition flyTo (target : option (number * number)) (zoom : number)
  : option ((number * number) * number) :=
  match target with
  | None => None
  | Some t => Some (t, Math_max zoom 14%float)
  end.

(** The JSON a response of the route parses to on the client.  A number
    goes through JSON unchanged unless it is NaN or infinite (written as
    [null]) or -0 (written as [0]). *)
Definition throughJson (v : value) : value :=
  match v with
  | VNum n =>
      if Facts.isFinite n then (if (n =? 0)%float then VNum 0%float else VNum n)
      else VNull
  | _ => v
  end.

Definition breweryThroughJson (b : Brewery) : Brewery :=
  {| id := id b; name := name b; brewery_type := brewery_type b;
     address_1 := address_1 b; city := city b;
     state_province := state_province b;
     latitude := throughJson (latitude b);
     longitude := throughJson (longitude b);
     website_url := website_url b |}.

Definition apiJsonOf (r : Route.NextResponse) : ApiJson :=
  match Route.res_body r with
  | Route.ErrorBody _ => JObject None
  | Route.BreweriesBody _ brs => JObject (Some (map breweryThroughJson brs))
  end.

End Client.

(** ** The distance as the specification words it

    A second definition, written from the specification's section 4.1 and
    not from the code, to compare the code with: the haversine term is
    clamped to [0, 1] before the square root and the arcsine. *)

Module Spec.
Section WithRuntime.

Context {RT : Runtime}.
Local Open Scope float_scope.



End WithRuntime.
End Spec.

(** ** More scenarios *)

Module Cases.

Import Route.
Local Open Scope string_scope.
Local Open Scope float_scope.

(** Coordinates of Denver and 500 records a page. *)
Definition bigPage : Query :=
  {| q_city := None; q_state := None;
     q_lat := Some "39.7392"; q_lon := Some "-104.9903";
     q_radius := Some "30"; q_per_page := Some "500" |}.

(** No coordinates and a negative radius. *)
Definition negativeRadius : Query :=
  {| q_city := Some "Boulder"; q_state := None;
     q_lat := None; q_lon := None;
     q_radius := Some "-5"; q_per_page := None |}.

(** The directory answers 304. *)
Definition notModified : World :=
  {| geocoder := Scenario.replying 200 (Some [Scenario.denverHit]);
     directory := Scenario.replying 304 None |}.

(** The directory serves a near record and a far one besides the
    catalogue's. *)
Definition nearAndFar : World :=
  {| geocoder := Scenario.replying 200 (Some [Scenario.denverHit]);
     directory :=
       Scenario.replying 200
         (Some [Scenario.denver;
                Scenario.brewery "northglenn" (VNum 39.8853) (VNum (-104.9872));
                Scenario.losAngeles; Scenario.denverText; Scenario.unlocated]) |}.

(** A record nine miles or so north of Denver's centre. *)
Definition northglenn : Brewery :=
  Scenario.brewery "northglenn" (VNum 39.8853) (VNum (-104.9872)).

(** [String(n)] for the integers below 2^53 in magnitude, digit by digit;
    other doubles are outside this printer, which answers "NaN" for them. *)
Definition integerOf (x : float) : option Z :=
  match Prim2SF x with
  | S754_zero _ => Some 0%Z
  | S754_finite sg m e =>
      let z := if (0 <=? e)%Z then Some (Zpos m * 2 ^ e)%Z
               else if (Zpos m mod 2 ^ (- e) =? 0)%Z
                    then Some (Zpos m / 2 ^ (- e))%Z else None in
      match z with
      | Some v => if (v <? 2 ^ 53)%Z then Some (if sg then (- v)%Z else v) else None
      | None => None
      end
  | _ => None
  end.

Fixpoint digits (fuel : nat) (z : Z) (acc : string) : string :=
  match fuel with
  | O => acc
  | S f =>
      let acc' := String (ascii_of_N (Z.to_N (48 + z mod 10))) acc in
      if (z / 10 =? 0)%Z then acc' else digits f (z / 10)%Z acc'
  end.

Definition stringOfInteger (x : float) : string :=
  match integerOf x with
  | Some z => if (z <? 0)%Z then String "-" (digits 20 (- z)%Z EmptyString)
              else digits 20 z EmptyString
  | None => "NaN"
  end.

(** A record whose latitude is text that is no numeral. *)
Definition scribbled : Brewery :=
  Scenario.brewery "scribbled" (VStr "north") (VNum (-104.9903)).

(** The route seen from the client: the client receives the JSON of what
    the handler answered, and no JSON at all when the handler rejected. *)
Definition served (w : World) (q : Query) : Client.ApiReply :=
  match fst (run w (GET (RT := Ref.runtime) q)) with
  | Resolved r => Client.ApiJsonOf (Client.apiJsonOf r)
  | Rejected => Client.ApiThrew
  end.

End Cases.

Local Open Scope string_scope.
Local Open Scope list_scope.
Local Open Scope float_scope.

(** ** Sign symmetries of binary64 arithmetic

    Rounding to nearest-even does not look at the sign, so negation commutes
    with multiplication and division, and swapping the operands of a
    subtraction negates the result unless it is a zero or NaN. *)

Section FloatSign.

Local Open Scope float_scope.

Lemma binary_round_aux_negb (s : bool) (m e : Z) (l : SpecFloat.location) :
  binary_round_aux prec emax (negb s) m e l
  = SFopp (binary_round_aux prec emax s m e l).
Proof.
  unfold binary_round_aux.
  destruct (shr_fexp prec emax m e l) as [mrs' e'].
  destruct (shr_fexp prec emax _ e' loc_Exact) as [mrs'' e''].
  destruct (shr_m mrs''); try reflexivity.
  destruct (e'' <=? emax - prec)%Z; reflexivity.
Qed.

Lemma binary_round_negb (s : bool) (m : positive) (e : Z) :
  binary_round prec emax (negb s) m e = SFopp (binary_round prec emax s m e).
Proof.
  unfold binary_round.
  destruct (shl_align m e _) as [mz ez].
  apply binary_round_aux_negb.
Qed.

Lemma SFmul_opp_l (x y : spec_float) :
  SF64mul (SFopp x) y = SFopp (SF64mul x y).
Proof.
  destruct x as [sx|sx| |sx mx ex], y as [sy|sy| |sy my ey];
    try reflexivity; cbn -[binary_round_aux];
    try (destruct sx, sy; reflexivity).
  rewrite <- binary_round_aux_negb. now destruct sx, sy.
Qed.

Lemma SFmul_comm (x y : spec_float) : SF64mul x y = SF64mul y x.
Proof.
  destruct x as [sx|sx| |sx mx ex], y as [sy|sy| |sy my ey];
    try reflexivity; cbn -[binary_round_aux];
    rewrite ?(xorb_comm sx sy); try reflexivity.
  now rewrite Pos.mul_comm, Z.add_comm.
Qed.

Lemma SFdiv_opp_l (x y : spec_float) :
  SF64div (SFopp x) y = SFopp (SF64div x y).
Proof.
  destruct x as [sx|sx| |sx mx ex], y as [sy|sy| |sy my ey];
    try reflexivity; cbn -[binary_round_aux SFdiv_core_binary];
    try (destruct sx, sy; reflexivity).
  destruct (SFdiv_core_binary _ _ _ _ _ _) as [[mz ez] lz].
  rewrite <- binary_round_aux_negb. now destruct sx, sy.
Qed.

Lemma mul_opp_l (x y : float) : (- x) * y = - (x * y).
Proof.
  apply Prim2SF_inj.
  now rewrite opp_spec, !mul_spec, opp_spec, SFmul_opp_l.
Qed.

Lemma mul_comm (x y : float) : x * y = y * x.
Proof. apply Prim2SF_inj. rewrite !mul_spec. apply SFmul_comm. Qed.

Lemma mul_opp_opp (x : float) : (- x) * (- x) = x * x.
Proof.
  rewrite mul_opp_l, (mul_comm x (- x)), mul_opp_l.
  apply Prim2SF_inj. rewrite !opp_spec.
  now destruct (Prim2SF (x * x)) as [[]|[]| |[] m e].
Qed.

Lemma div_opp_l (x y : float) : (- x) / y = - (x / y).
Proof.
  apply Prim2SF_inj.
  now rewrite opp_spec, !div_spec, opp_spec, SFdiv_opp_l.
Qed.

Lemma SFsub_swap (x y : spec_float) :
  SF64sub x y = SF64sub y x \/ SF64sub x y = SFopp (SF64sub y x).
Proof.
  destruct x as [sx|sx| |sx mx ex], y as [sy|sy| |sy my ey];
    try (left; reflexivity); try (right; reflexivity);
    try (destruct sx, sy; (left; reflexivity) || (right; reflexivity)).
  unfold SF64sub, SFsub. rewrite (Z.min_comm ey ex).
  set (ez := Z.min ex ey).
  set (a := cond_Zopp sx (Zpos (fst (shl_align mx ex ez)))).
  set (b := cond_Zopp sy (Zpos (fst (shl_align my ey ez)))).
  replace (b - a)%Z with (- (a - b))%Z by lia.
  destruct (a - b)%Z as [|p|p]; cbn [Z.opp binary_normalize].
  - now left.
  - right. apply (binary_round_negb true).
  - right. apply (binary_round_negb false).
Qed.

Lemma sub_swap (x y : float) : x - y = y - x \/ x - y = - (y - x).
Proof.
  destruct (SFsub_swap (Prim2SF x) (Prim2SF y)) as [E|E]; [left|right];
    apply Prim2SF_inj; rewrite ?opp_spec, !sub_spec; exact E.
Qed.

End FloatSign.

(** ** The handler, phase by phase *)

Section Phases.

Context {RT : Runtime}.
Import Route.
Local Open Scope float_scope.

Lemma GET_phases (req : Query) :
  GET req =
  bind (resolveOrigin (cityOf req) (stateOf req) (radiusMilesOf req)
          (number_or_null (q_lat req)) (number_or_null (q_lon req)))
       (fun origin =>
          let '(originLat, originLon) := origin in
          answer (cityOf req) (stateOf req) (radiusMilesOf req) (perPageOf req)
                 originLat originLon).
Proof. reflexivity. Qed.

Lemma milesBetween_haversine (lat1 lon1 lat2 lon2 : number) :
  milesBetween lat1 lon1 lat2 lon2
  = 2 * 3958.7613 * Math_asin (Math_sqrt (haversine lat1 lon1 lat2 lon2)).
Proof. reflexivity. Qed.

Lemma run_bind {A B} (w : World) (m : action A) (f : A -> action B) :
  run w (bind m f) =
  match run w m with
  | (Resolved a, t) => let (o, t') := run w (f a) in (o, t ++ t')
  | (Rejected, t) => (Rejected, t)
  end.
Proof.
  induction m as [a| |rq k IH|rq k IH]; cbn.
  - now destruct (run w (f a)).
  - reflexivity.
  - rewrite IH. destruct (run w (k (geocoder w rq))) as [[a|] t]; [|reflexivity].
    now destruct (run w (f a)).
  - rewrite IH. destruct (run w (k (directory w rq))) as [[a|] t]; [|reflexivity].
    now destruct (run w (f a)).
Qed.

Lemma run_geocodeCityState (w : World) (city state : string) :
  run w (geocodeCityState city state)
  = (geocoded (geocoder w (geocodeUrl city state)),
     [GeocodeCall (geocodeUrl city state)]).
Proof.
  unfold geocodeCityState, fetchGeocode, geocoded. cbn [bind run].
  fold (geocodeUrl city state).
  destruct (geocoder w (geocodeUrl city state)) as [|res]; cbn; [reflexivity|].
  destruct (ok res); cbn; [|reflexivity].
  unfold json. destruct (body res) as [[|d0 rest]|]; reflexivity.
Qed.

Lemma run_resolveOrigin (w : World) (city state : string) (radiusMiles : number)
      (originLat0 originLon0 : option number) :
  run w (resolveOrigin city state radiusMiles originLat0 originLon0) =
  if (is_null originLat0 || is_null originLon0) && gt radiusMiles 0 then
    (match geocoded (geocoder w (geocodeUrl city state)) with
     | Resolved geo => Resolved (originAfter originLat0 originLon0 geo)
     | Rejected => Rejected
     end, [GeocodeCall (geocodeUrl city state)])
  else (Resolved (originLat0, originLon0), []).
Proof.
  unfold resolveOrigin.
  destruct ((is_null originLat0 || is_null originLon0) && gt radiusMiles 0);
    [|reflexivity].
  rewrite run_bind, run_geocodeCityState.
  destruct (geocoded _) as [[[glat glon]|]|]; reflexivity.
Qed.

Lemma run_answer (w : World) (city state : string) (radiusMiles perPage : number)
      (originLat originLon : option number) :
  run w (answer city state radiusMiles perPage originLat originLon) =
  let url := directoryUrl perPage originLat originLon city state in
  (answered radiusMiles originLat originLon (directory w url), [DirectoryCall url]).
Proof.
  unfold answer, fetchDirectory, answered. cbn [bind run].
  destruct (directory w _) as [|res]; cbn; [reflexivity|].
  destruct (ok res); cbn;
    [|unfold NextResponse_json; now destruct (can_carry_body (status res))].
  unfold json. destruct (body res) as [data|]; cbn; [|reflexivity].
  destruct originLat, originLon; try reflexivity.
  unfold gt. destruct (0 <? radiusMiles); reflexivity.
Qed.

(** The whole handler: at most one geocoding request, then exactly one
    directory request unless geocoding rejected. *)
Lemma run_GET (w : World) (req : Query) :
  run w (GET req) =
  let originLat0 := number_or_null (q_lat req) in
  let originLon0 := number_or_null (q_lon req) in
  let gurl := geocodeUrl (cityOf req) (stateOf req) in
  let reply origin :=
    let url := directoryUrl (perPageOf req) (fst origin) (snd origin)
                            (cityOf req) (stateOf req) in
    (answered (radiusMilesOf req) (fst origin) (snd origin) (directory w url),
     [DirectoryCall url]) in
  if (is_null originLat0 || is_null originLon0) && gt (radiusMilesOf req) 0 then
    match geocoded (geocoder w gurl) with
    | Resolved geo =>
        let (o, t) := reply (originAfter originLat0 originLon0 geo) in
        (o, GeocodeCall gurl :: t)
    | Rejected => (Rejected, [GeocodeCall gurl])
    end
  else reply (originLat0, originLon0).
Proof.
  rewrite GET_phases, run_bind, run_resolveOrigin. cbv zeta.
  destruct ((is_null _ || is_null _) && gt _ 0).
  - destruct (geocoded _) as [geo|]; [|reflexivity].
    destruct (originAfter _ _ geo) as [originLat originLon].
    now rewrite run_answer.
  - now rewrite run_answer.
Qed.

End Phases.

(** ** The radius filter *)

Section RadiusFilter.

Context {RT : Runtime}.
Import Route.
Local Open Scope float_scope.

Lemma eqb_leb (x y : float) : (x =? y) = true -> (x <=? y) = true.
Proof.
  rewrite eqb_spec, leb_spec. unfold SFeqb, SFleb.
  destruct (SFcompare _ _) as [[]|]; congruence.
Qed.

Lemma typeof_number (v : value) :
  typeof v = "number"%string <-> exists n, v = VNum n.
Proof.
  destruct v; cbn; split; intros H; try discriminate; eauto;
    destruct H as [n H]; discriminate.
Qed.

Lemma inRadius_true (olat olon r : number) (b : Brewery) :
  inRadius olat olon r b = true <->
  exists blat blon,
    latitude b = VNum blat /\ longitude b = VNum blon /\
    le (milesBetween olat olon blat blon) r = true.
Proof.
  unfold inRadius. split.
  - destruct (latitude b) as [|blat|]; try discriminate.
    destruct (longitude b) as [|blon|]; try discriminate.
    intros H. now exists blat, blon.
  - intros (blat & blon & -> & -> & H). exact H.
Qed.

Lemma inRadius_guard (olat olon r : number) (b : Brewery) :
  inRadius olat olon r b = true ->
  typeof (latitude b) = "number" /\ typeof (longitude b) = "number".
Proof.
  intros H. apply inRadius_true in H as (blat & blon & -> & -> & _).
  now split.
Qed.

Lemma answered_filtered (r : number) (originLat originLon : option number)
      (d : fetched (list Brewery)) (st : Z) (o : Origin) (brs : list Brewery) :
  answered r originLat originLon d
  = Resolved {| res_status := st; res_body := BreweriesBody (Some o) brs |} ->
  originLat = Some (o_lat o) /\ originLon = Some (o_lon o) /\
  r = o_radiusMiles o /\ gt r 0 = true /\
  exists data, brs = filter (inRadius (o_lat o) (o_lon o) r) data.
Proof.
  unfold answered.
  destruct d as [|res]; [discriminate|].
  destruct (negb (ok res));
    [destruct (can_carry_body (status res)); discriminate|].
  destruct (body res) as [data|]; [|discriminate].
  destruct originLat as [olat|], originLon as [olon|]; try discriminate.
  destruct (gt r 0) eqn:Hr; [|discriminate].
  intros H. injection H as _ <- <-. cbn. eauto 10.
Qed.

Lemma GET_filtered (w : World) (req : Query) (st : Z) (o : Origin)
      (brs : list Brewery) :
  fst (run w (GET req))
  = Resolved {| res_status := st; res_body := BreweriesBody (Some o) brs |} ->
  o_radiusMiles o = radiusMilesOf req /\ gt (o_radiusMiles o) 0 = true /\
  exists data,
    brs = filter (inRadius (o_lat o) (o_lon o) (o_radiusMiles o)) data.
Proof.
  rewrite run_GET. cbv zeta.
  destruct ((is_null _ || is_null _) && gt _ 0).
  - destruct (geocoded _) as [geo|]; [|discriminate].
    cbn [fst]. intros H.
    apply answered_filtered in H as (_ & _ & Hr & Hgt & data & ->).
    rewrite <- Hr. eauto.
  - cbn [fst]. intros H.
    apply answered_filtered in H as (_ & _ & Hr & Hgt & data & ->).
    rewrite <- Hr. eauto.
Qed.

(** C6: for a record with number-typed coordinates the filter's test is
    the comparison [milesBetween origin candidate <= radiusMiles], and it
    is inclusive: when the computed distance equals the radius the record
    passes and stays in the filtered sequence. *)
Theorem C6_radius_inclusive
        (olat olon r blat blon : number) (b : Brewery) (data : list Brewery) :
  latitude b = VNum blat -> longitude b = VNum blon ->
  inRadius olat olon r b = le (milesBetween olat olon blat blon) r /\
  ((milesBetween olat olon blat blon =? r) = true ->
   inRadius olat olon r b = true /\
   (In b data -> In b (filter (inRadius olat olon r) data))).
Proof.
  intros Hlat Hlon.
  assert (E : inRadius olat olon r b = le (milesBetween olat olon blat blon) r)
    by (unfold inRadius; now rewrite Hlat, Hlon).
  split; [exact E|]. intros Heq.
  assert (T : inRadius olat olon r b = true)
    by (rewrite E; now apply eqb_leb).
  split; [exact T|]. intros Hin. apply filter_In. now split.
Qed.

(** C3 (as amended): the filter does not convert anything.  It keeps a
    record exactly when both coordinate fields are already numbers
    ([typeof] is "number") and the distance is within the radius; a record
    with a string-typed coordinate is dropped like one with none, whatever
    the string says. *)
Theorem C3_filter_keeps_only_number_typed
        (olat olon r : number) (data : list Brewery) (b : Brewery) :
  (In b (filter (inRadius olat olon r) data) <->
   In b data /\
   exists blat blon,
     latitude b = VNum blat /\ longitude b = VNum blon /\
     le (milesBetween olat olon blat blon) r = true) /\
  (In b (filter (inRadius olat olon r) data) ->
   typeof (latitude b) = "number" /\ typeof (longitude b) = "number") /\
  (forall s, latitude b = VStr s \/ longitude b = VStr s ->
             inRadius olat olon r b = false /\
             ~ In b (filter (inRadius olat olon r) data)).
Proof.
  assert (I : In b (filter (inRadius olat olon r) data) <->
              In b data /\
              exists blat blon,
                latitude b = VNum blat /\ longitude b = VNum blon /\
                le (milesBetween olat olon blat blon) r = true)
    by (rewrite filter_In, inRadius_true; reflexivity).
  split; [exact I|]. split.
  - intros Hin. apply filter_In in Hin as [_ Hin].
    now apply inRadius_guard in Hin.
  - intros s Hs.
    assert (F : inRadius olat olon r b = false).
    { destruct (inRadius olat olon r b) eqn:E; [|reflexivity].
      apply inRadius_true in E as (blat & blon & Hlat & Hlon & _).
      destruct Hs as [Hs|Hs]; congruence. }
    split; [exact F|].
    intros Hin. apply filter_In in Hin as [_ Hin]. congruence.
Qed.

End RadiusFilter.

(** C6, witnessed at the boundary: the antipode of (0, 0) with the radius
    set to the distance itself. *)
Lemma C6_witness :
  let r := Route.milesBetween (RT := Ref.runtime) 0 0 0 180 in
  let b := Scenario.brewery "antipode" (VNum 0) (VNum 180) in
  Route.inRadius (RT := Ref.runtime) 0 0 r b
  = le (Route.milesBetween (RT := Ref.runtime) 0 0 0 180) r /\
  ((Route.milesBetween (RT := Ref.runtime) 0 0 0 180 =? r) = true ->
   Route.inRadius (RT := Ref.runtime) 0 0 r b = true /\
   (In b [b] -> In b (filter (Route.inRadius (RT := Ref.runtime) 0 0 r) [b]))).
Proof.
  intros r b.
  apply (@C6_radius_inclusive Ref.runtime 0 0 r 0 180 b [b]); reflexivity.
Defined.

(** C3, refuted as stated: a record whose coordinates are the strings
    "39.7392" and "-104.9903" lies at the origin once converted, yet the
    30-mile search around that origin returns Denver alone. *)
Lemma C3_counterexample :
  le (Route.milesBetween (RT := Ref.runtime) 39.7392 (-104.9903)
        (Number (RT := Ref.runtime) (latitude Scenario.denverText))
        (Number (RT := Ref.runtime) (longitude Scenario.denverText))) 30
  = true /\
  In Scenario.denverText Scenario.catalogue /\
  ~ In Scenario.denverText [Scenario.denver] /\
  fst (run Scenario.healthy (Route.GET (RT := Ref.runtime) Scenario.byCoords))
  = Resolved {| Route.res_status := 200;
                Route.res_body :=
                  Route.BreweriesBody
                    (Some {| Route.o_lat := 39.7392; Route.o_lon := -104.9903;
                             Route.o_radiusMiles := 30 |}%float)
                    [Scenario.denver] |}.
Proof.
  split; [vm_compute; reflexivity|].
  split; [cbn; tauto|].
  split; [intros [H|[]]; discriminate H|].
  vm_compute. reflexivity.
Qed.

(** ** The two collaborators *)

Section Collaborators.

Context {RT : Runtime}.
Import Route.


Lemma geocoded_miss (r : fetched (list GeoHit)) (gres : response (list GeoHit)) :
  r = Responded gres -> ok gres = false \/ body gres = Some [] ->
  geocoded r = Resolved None.
Proof.
  intros -> [Hok|Hb]; cbn.
  - now rewrite Hok.
  - rewrite Hb. now destruct (ok gres).
Qed.

Lemma answered_failure (r : number) (originLat originLon : option number)
      (res : response (list Brewery)) :
  ok res = false -> can_carry_body (status res) = true ->
  answered r originLat originLon (Responded res)
  = Resolved {| res_status := status res;
                res_body := ErrorBody "Failed to fetch breweries" |}.
Proof. intros Hok Hc. cbn -[can_carry_body]. now rewrite Hok, Hc. Qed.

Lemma answered_unanswerable (r : number) (originLat originLon : option number)
      (res : response (list Brewery)) :
  ok res = false -> can_carry_body (status res) = false ->
  answered r originLat originLon (Responded res) = Rejected.
Proof. intros Hok Hc. cbn -[can_carry_body]. now rewrite Hok, Hc. Qed.

(** Outside 200-299, the statuses a response with a body can have are
    those from 300 to 599 other than 304. *)
Lemma can_carry_body_failure (st : Z) :
  (300 <= st <= 599)%Z -> st <> 304%Z -> can_carry_body st = true.
Proof.
  intros H N. unfold can_carry_body, null_body_status.
  repeat match goal with
         | |- context [(?a =? ?b)%Z] => destruct (Z.eqb_spec a b); [lia|]
         end.
  cbn. lia.
Qed.

Lemma answered_unfiltered (r : number) (originLat originLon : option number)
      (res : response (list Brewery)) (data : list Brewery) :
  ok res = true -> body res = Some data ->
  is_null originLat || is_null originLon || negb (gt r 0) = true ->
  answered r originLat originLon (Responded res)
  = Resolved {| res_status := 200; res_body := BreweriesBody None data |}.
Proof.
  intros Hok Hb H. cbn -[gt]. rewrite Hok, Hb. cbn -[gt].
  destruct originLat, originLon; try reflexivity.
  cbn -[gt] in H. now destruct (gt r 0).
Qed.

Lemma answered_filter (r olat olon : number)
      (res : response (list Brewery)) (data : list Brewery) :
  ok res = true -> body res = Some data -> gt r 0 = true ->
  answered r (Some olat) (Some olon) (Responded res)
  = Resolved {| res_status := 200;
                res_body := BreweriesBody
                  (Some {| o_lat := olat; o_lon := olon; o_radiusMiles := r |})
                  (filter (inRadius olat olon r) data) |}.
Proof. intros Hok Hb Hr. cbn -[gt]. now rewrite Hok, Hb, Hr. Qed.

Lemma directoryUrl_fallback (perPage : number) (originLat originLon : option number)
      (city state : string) :
  is_null originLat || is_null originLon = true ->
  directoryUrl perPage originLat originLon city state
  = directoryUrl perPage None None city state.
Proof. destruct originLat, originLon; cbn; congruence. Qed.

Lemma eqb_zero_not_gt (r : number) : (r =? 0) = true -> gt r 0 = false.
Proof.
  unfold gt. rewrite eqb_spec, ltb_spec.
  replace (Prim2SF 0) with (S754_zero false) by reflexivity.
  now destruct (Prim2SF r) as [[]|[]| |[] m e].
Qed.

(** C4 (as amended): whenever the handler has sent the directory a
    request and the directory answered it with a status from 300 to 599
    other than 304 (the non-success statuses a response with a body can
    have), the handler resolves to the error body (no breweries field) with
    that same status, and the request is the only one the directory
    received: nothing is retried. *)
Theorem C4_directory_failure_propagates
        (w : World) (req : Query) (rq : DirRequest)
        (res : response (list Brewery)) :
  In (DirectoryCall rq) (snd (run w (GET req))) ->
  directory w rq = Responded res ->
  (300 <= status res <= 599)%Z -> status res <> 304%Z ->
  ok res = false /\
  fst (run w (GET req))
  = Resolved {| res_status := status res;
                res_body := ErrorBody "Failed to fetch breweries" |} /\
  filter is_directory_call (snd (run w (GET req))) = [DirectoryCall rq].
Proof.
  intros Hin Hd Hst H304.
  assert (Hok : ok res = false) by (unfold ok; lia).
  assert (Hc := can_carry_body_failure Hst H304).
  split; [exact Hok|]. revert Hin.
  rewrite run_GET. cbv zeta.
  destruct ((is_null _ || is_null _) && gt _ 0).
  - destruct (geocoded _) as [geo|]; cbn [fst snd].
    + intros [H|[H|[]]]; [discriminate H|].
      injection H as <-. rewrite Hd. split; [|reflexivity].
      now apply answered_failure.
    + intros [H|[]]. discriminate H.
  - cbn [fst snd]. intros [H|[]].
    injection H as <-. rewrite Hd. split; [|reflexivity].
    now apply answered_failure.
Qed.

(** C5 (as amended): when the two coordinates are not both supplied and
    the geocoder answers with a non-success status or with an empty array,
    the handler goes on without an origin: the one directory request it
    sends asks for the city and state by name, and a successful directory
    reply is returned whole, with no origin field. *)
Theorem C5_geocode_miss_falls_back
        (w : World) (req : Query) (gres : response (list GeoHit)) :
  supplied (q_lat req) && supplied (q_lon req) = false ->
  geocoder w (geocodeUrl (cityOf req) (stateOf req)) = Responded gres ->
  ok gres = false \/ body gres = Some [] ->
  let url := directoryUrl (perPageOf req) None None (cityOf req) (stateOf req) in
  filter is_directory_call (snd (run w (GET req))) = [DirectoryCall url] /\
  by_dist url = None /\
  by_city url = Some (cityOf req) /\ by_state url = Some (stateOf req) /\
  forall (res : response (list Brewery)) (data : list Brewery),
    directory w url = Responded res -> ok res = true -> body res = Some data ->
    fst (run w (GET req))
    = Resolved {| res_status := 200; res_body := BreweriesBody None data |}.
Proof.
  intros Hsup Hg Hmiss url.
  assert (Hnull : is_null (number_or_null (q_lat req))
                  || is_null (number_or_null (q_lon req)) = true).
  { unfold supplied in Hsup.
    destruct (is_null (number_or_null (q_lat req))),
             (is_null (number_or_null (q_lon req))); cbn in *; congruence. }
  rewrite run_GET. cbv zeta. rewrite Hnull. cbn [andb].
  rewrite (geocoded_miss Hg Hmiss). cbn [originAfter fst snd].
  rewrite (directoryUrl_fallback _ _ _ _ _ Hnull). fold url.
  destruct (gt (radiusMilesOf req) 0); cbn [fst snd filter is_directory_call];
    (split; [reflexivity|]); repeat (split; [reflexivity|]);
    intros res data Hd Hok Hb; rewrite Hd;
    apply answered_unfiltered; auto; now rewrite Hnull.
Qed.

(** C7: with both coordinates supplied and a radius equal to zero the
    handler does not geocode; its single request asks the directory for
    results sorted by distance from the supplied point, and a successful
    reply is returned whole and without an origin field. *)
Theorem C7_zero_radius_disables_filter
        (w : World) (req : Query) (slat slon : string) :
  q_lat req = Some slat -> truthy_string slat = true ->
  q_lon req = Some slon -> truthy_string slon = true ->
  (radiusMilesOf req =? 0) = true ->
  let origin := (Number_of_string slat, Number_of_string slon) in
  let url := directoryUrl (perPageOf req) (Some (fst origin)) (Some (snd origin))
                          (cityOf req) (stateOf req) in
  snd (run w (GET req)) = [DirectoryCall url] /\
  by_dist url = Some origin /\ by_city url = None /\ by_state url = None /\
  forall (res : response (list Brewery)) (data : list Brewery),
    directory w url = Responded res -> ok res = true -> body res = Some data ->
    fst (run w (GET req))
    = Resolved {| res_status := 200; res_body := BreweriesBody None data |}.
Proof.
  intros Hlat Tlat Hlon Tlon Hr origin url.
  apply eqb_zero_not_gt in Hr.
  rewrite run_GET. cbv zeta. rewrite Hlat, Hlon. unfold number_or_null.
  rewrite Tlat, Tlon, Hr. subst origin url. cbn [is_null orb andb fst snd].
  repeat (split; [reflexivity|]).
  intros res data Hd Hok Hb. rewrite Hd.
  apply answered_unfiltered; auto. rewrite Hr. apply orb_true_r.
Qed.



End Collaborators.

(** C4, witnessed: the directory answers 503 to a search by coordinates. *)
Lemma C4_witness :
  let run_ := run Scenario.directoryDown (Route.GET (RT := Ref.runtime) Scenario.byCoords) in
  ok {| status := 503; body := (None : option (list Brewery)) |} = false /\
  fst run_
  = Resolved {| Route.res_status := 503;
                Route.res_body := Route.ErrorBody "Failed to fetch breweries" |} /\
  filter is_directory_call (snd run_)
  = [DirectoryCall (Route.directoryUrl 200 (Some 39.7392) (Some (-104.9903))
                                       "Denver" "Colorado")].
Proof.
  apply (@C4_directory_failure_propagates Ref.runtime Scenario.directoryDown
           Scenario.byCoords
           (Route.directoryUrl 200 (Some 39.7392) (Some (-104.9903))
                               "Denver" "Colorado")
           {| status := 503; body := None |}).
  - vm_compute. left. reflexivity.
  - reflexivity.
  - cbn. lia.
  - discriminate.
Defined.

(** C4, refuted as stated: the directory answers 304, a non-success
    status.  [NextResponse.json] cannot build a response with a body and
    status 304, so the handler throws: the caller gets no error result
    carrying 304. *)
Lemma C4_counterexample :
  directory Cases.notModified
            (Route.directoryUrl 200 (Some 39.7392) (Some (-104.9903))
                                "Denver" "Colorado")
  = Responded {| status := 304; body := None |} /\
  ok {| status := 304; body := (None : option (list Brewery)) |} = false /\
  run Cases.notModified (Route.GET (RT := Ref.runtime) Scenario.byCoords)
  = (Rejected,
     [DirectoryCall (Route.directoryUrl 200 (Some 39.7392) (Some (-104.9903))
                                        "Denver" "Colorado")]).
Proof. repeat split. Qed.

(** C5, refuted as stated: when the geocoder cannot be reached, the
    rejection of [fetch] is caught nowhere; the handler rejects after its
    geocoding request and the directory is never asked. *)
Lemma C5_counterexample :
  Route.supplied (RT := Ref.runtime) (Route.q_lat Scenario.byCity) = false /\
  Route.supplied (RT := Ref.runtime) (Route.q_lon Scenario.byCity) = false /\
  geocoder Scenario.geocoderDown (Route.geocodeUrl "Denver" "Colorado")
  = NetworkError /\
  run Scenario.geocoderDown (Route.GET (RT := Ref.runtime) Scenario.byCity)
  = (Rejected, [GeocodeCall (Route.geocodeUrl "Denver" "Colorado")]).
Proof. repeat split. Qed.

(** C5 (as amended), witnessed twice: the geocoder finds nothing, and the
    geocoder answers 429. *)
Lemma C5_witness :
  let url := Route.directoryUrl 200 None None "Denver" "Colorado" in
  (filter is_directory_call
     (snd (run Scenario.noMatch (Route.GET (RT := Ref.runtime) Scenario.byCity)))
   = [DirectoryCall url] /\
   fst (run Scenario.noMatch (Route.GET (RT := Ref.runtime) Scenario.byCity))
   = Resolved {| Route.res_status := 200;
                 Route.res_body := Route.BreweriesBody None Scenario.catalogue |}) /\
  fst (run Scenario.throttled (Route.GET (RT := Ref.runtime) Scenario.byCity))
  = Resolved {| Route.res_status := 200;
                Route.res_body := Route.BreweriesBody None Scenario.catalogue |}.
Proof.
  intros url. split.
  - destruct (@C5_geocode_miss_falls_back Ref.runtime Scenario.noMatch
                Scenario.byCity {| status := 200; body := Some [] |})
      as (Ht & _ & _ & _ & Hres).
    + reflexivity.
    + reflexivity.
    + right. reflexivity.
    + split; [exact Ht|].
      apply (Hres {| status := 200; body := Some Scenario.catalogue |});
        reflexivity.
  - destruct (@C5_geocode_miss_falls_back Ref.runtime Scenario.throttled
                Scenario.byCity {| status := 429; body := None |})
      as (_ & _ & _ & _ & Hres).
    + reflexivity.
    + reflexivity.
    + left. reflexivity.
    + apply (Hres {| status := 200; body := Some Scenario.catalogue |});
        reflexivity.
Defined.

(** C7, witnessed: explicit coordinates with radius "0"; Los Angeles and
    the records without numbers come back too. *)
Lemma C7_witness :
  let run_ := run Scenario.healthy (Route.GET (RT := Ref.runtime) Scenario.byCoordsRadius0) in
  snd run_
  = [DirectoryCall (Route.directoryUrl 200 (Some 39.7392) (Some (-104.9903))
                                       "Denver" "Colorado")] /\
  fst run_
  = Resolved {| Route.res_status := 200;
                Route.res_body := Route.BreweriesBody None Scenario.catalogue |}.
Proof.
  pose proof (@C7_zero_radius_disables_filter Ref.runtime Scenario.healthy
                Scenario.byCoordsRadius0 "39.7392" "-104.9903"
                eq_refl eq_refl eq_refl eq_refl eq_refl)
    as (Ht & _ & _ & _ & Hres).
  split; [exact Ht|].
  exact (Hres {| status := 200; body := Some Scenario.catalogue |}
              Scenario.catalogue eq_refl eq_refl eq_refl).
Defined.


(** ** The client's coordinate filter *)

Section ClientFilter.

Context {RT : Runtime}.
Import MapView.

Lemma hasCoords_both_truthy (b : Brewery) :
  hasCoords b = truthy (latitude b) && truthy (longitude b).
Proof.
  unfold hasCoords. destruct (truthy (latitude b)) eqn:E; [reflexivity|].
  now rewrite E.
Qed.

Lemma breweriesWithCoords_app (l1 l2 : list Brewery) :
  breweriesWithCoords (l1 ++ l2)
  = breweriesWithCoords l1 ++ breweriesWithCoords l2.
Proof. unfold breweriesWithCoords. now rewrite filter_app, map_app. Qed.

(** C10: [breweriesWithCoords] keeps, in order, exactly the records whose
    latitude and longitude are both truthy, converting the two fields with
    [Number]; so a record whose latitude or longitude is the number 0 or
    the empty string contributes nothing to the list the panel and the
    markers are drawn from, although 0 is a coordinate like any other to
    [milesBetween]. *)
Theorem C10_zero_coordinate_dropped
        (breweries pre post : list Brewery) (b : Brewery) :
  breweriesWithCoords breweries
  = map withNumbers
        (filter (fun x => truthy (latitude x) && truthy (longitude x)) breweries) /\
  (latitude b = VNum 0 \/ longitude b = VNum 0 \/
   latitude b = VStr EmptyString \/ longitude b = VStr EmptyString ->
   hasCoords b = false /\
   breweriesWithCoords (pre ++ b :: post)
   = breweriesWithCoords pre ++ breweriesWithCoords post).
Proof.
  split.
  - unfold breweriesWithCoords. f_equal. apply filter_ext.
    apply hasCoords_both_truthy.
  - intros H.
    assert (E : hasCoords b = false).
    { rewrite hasCoords_both_truthy.
      destruct H as [H|[H|[H|H]]]; rewrite H; cbn;
        auto using andb_false_r. }
    split; [exact E|].
    rewrite breweriesWithCoords_app. f_equal.
    change (b :: post) with ([b] ++ post).
    rewrite breweriesWithCoords_app.
    unfold breweriesWithCoords at 1. cbn. now rewrite E.
Qed.

End ClientFilter.

(** C10, witnessed: a brewery on the equator, between two located ones. *)
Lemma C10_witness :
  MapView.hasCoords Scenario.equator = false /\
  MapView.breweriesWithCoords (RT := Ref.runtime)
    ([Scenario.denver] ++ Scenario.equator :: [Scenario.denverText])
  = MapView.breweriesWithCoords (RT := Ref.runtime) [Scenario.denver]
    ++ MapView.breweriesWithCoords (RT := Ref.runtime) [Scenario.denverText].
Proof.
  exact (proj2 (@C10_zero_coordinate_dropped Ref.runtime [] [Scenario.denver]
                  [Scenario.denverText] Scenario.equator) (or_introl eq_refl)).
Defined.

(** ** Symmetry of the distance *)

Section Symmetry.

Context {RT : Runtime}.
Import Route.

Hypothesis sin_odd : forall x, Math_sin (- x) = - Math_sin x.
Hypothesis pow2_even : forall x, pow2 (- x) = pow2 x.

Lemma toRad_opp (x : number) : toRad (- x) = - toRad x.
Proof. unfold toRad. now rewrite mul_opp_l, div_opp_l. Qed.

Lemma half_chord_swap (a b : number) :
  pow2 (Math_sin (toRad (a - b) / 2)) = pow2 (Math_sin (toRad (b - a) / 2)).
Proof.
  destruct (sub_swap a b) as [E|E]; rewrite E; [reflexivity|].
  now rewrite toRad_opp, div_opp_l, sin_odd, pow2_even.
Qed.

Lemma haversine_sym (lat1 lon1 lat2 lon2 : number) :
  haversine lat1 lon1 lat2 lon2 = haversine lat2 lon2 lat1 lon1.
Proof.
  unfold haversine.
  rewrite (half_chord_swap lat2 lat1), (half_chord_swap lon2 lon1).
  now rewrite (mul_comm (Math_cos (toRad lat1))).
Qed.

Lemma milesBetween_sym (lat1 lon1 lat2 lon2 : number) :
  milesBetween lat1 lon1 lat2 lon2 = milesBetween lat2 lon2 lat1 lon1.
Proof. now rewrite !milesBetween_haversine, haversine_sym. Qed.

End Symmetry.

(** C8: on an engine whose sine is odd and whose squaring is even,
    [milesBetween] returns the same double both ways round, for all
    arguments (in range or not); when that double is not NaN the two
    results are also equal for the comparison [==]. *)
Theorem C8_milesBetween_symmetric (RT : Runtime) :
  (forall x, Math_sin (- x) = - Math_sin x) ->
  (forall x, pow2 (- x) = pow2 x) ->
  forall lat1 lon1 lat2 lon2 : number,
    Route.milesBetween lat1 lon1 lat2 lon2 = Route.milesBetween lat2 lon2 lat1 lon1 /\
    (isNaN (Route.milesBetween lat1 lon1 lat2 lon2) = false ->
     (Route.milesBetween lat1 lon1 lat2 lon2
      =? Route.milesBetween lat2 lon2 lat1 lon1) = true).
Proof.
  intros Hsin Hpow lat1 lon1 lat2 lon2.
  assert (E := milesBetween_sym Hsin Hpow lat1 lon1 lat2 lon2).
  split; [exact E|].
  rewrite <- E. unfold isNaN.
  now destruct (Route.milesBetween lat1 lon1 lat2 lon2 =? _).
Qed.

(** ** The reference engine has an odd sine *)

Section RefEngine.

Lemma abs_opp (x : float) : abs (- x) = abs x.
Proof.
  apply Prim2SF_inj. rewrite !abs_spec, opp_spec.
  now destruct (Prim2SF x).
Qed.

Lemma opp_involutive (x : float) : - (- x) = x.
Proof.
  apply Prim2SF_inj. rewrite !opp_spec.
  destruct (Prim2SF x); cbn; now rewrite ?negb_involutive.
Qed.

Lemma kernel_sin_odd (x : float) : Ref.kernel_sin (- x) = - Ref.kernel_sin x.
Proof. unfold Ref.kernel_sin. now rewrite mul_opp_opp, mul_opp_l. Qed.

Lemma of_spec (x : float) (sf : spec_float) : Prim2SF x = sf -> x = SF2Prim sf.
Proof. intros <-. symmetry. apply SF2Prim_Prim2SF. Qed.

Lemma Ref_sin_odd (x : float) : Ref.sin (- x) = - Ref.sin x.
Proof.
  destruct (Prim2SF x) as [s|s| |s m e] eqn:Hx.
  - apply of_spec in Hx. subst x. now destruct s.
  - apply of_spec in Hx. subst x. now destruct s.
  - apply of_spec in Hx. now subst x.
  - unfold Ref.sin. cbv zeta. rewrite abs_opp.
    destruct (abs x <=? Math_PI / 4); [apply kernel_sin_odd|].
    assert (Hneg : (x <? 0) = s).
    { rewrite ltb_spec, Hx. now destruct s. }
    assert (Hpos : (- x <? 0) = negb s).
    { rewrite ltb_spec, opp_spec, Hx. now destruct s. }
    rewrite Hneg, Hpos.
    destruct s; cbn [negb]; [now rewrite opp_involutive|reflexivity].
Qed.

Lemma Ref_pow2_even (x : float) :
  pow2 (Runtime := Ref.runtime) (- x) = pow2 (Runtime := Ref.runtime) x.
Proof. apply mul_opp_opp. Qed.

End RefEngine.

(** C8, witnessed on the reference engine: Denver to Los Angeles and
    back. *)
Lemma C8_witness :
  Route.milesBetween (RT := Ref.runtime) 39.7392 (-104.9903) 34.0522 (-118.2437)
  = Route.milesBetween (RT := Ref.runtime) 34.0522 (-118.2437) 39.7392 (-104.9903).
Proof.
  exact (proj1 (@C8_milesBetween_symmetric Ref.runtime Ref_sin_odd Ref_pow2_even
                  39.7392 (-104.9903) 34.0522 (-118.2437))).
Defined.

(** ** The distance between antipodes *)

Section Antipodes.

Context {RT : Runtime}.
Import Route.


Lemma isNaN_nan (x : float) : isNaN x = true -> x = nan.
Proof.
  unfold isNaN. rewrite eqb_spec. unfold SFeqb.
  destruct (Prim2SF x) as [s|s| |s m e] eqn:Hx; cbn.
  - discriminate.
  - now destruct s.
  - intros _. now apply of_spec in Hx.
  - destruct s; rewrite Z.compare_refl, Pos.compare_cont_refl; discriminate.
Qed.


Hypothesis sin_0 : Math_sin 0 = 0.
Hypothesis sin_half_pi : Math_sin (Math_PI / 2) = 1.
Hypothesis cos_0 : Math_cos 0 = 1.
Hypothesis pow2_0 : pow2 0 = 0.
Hypothesis pow2_1 : pow2 1 = 1.
Hypothesis asin_1 : Math_asin 1 = Math_PI / 2.



End Antipodes.


(** ** The order of doubles *)

Section FloatOrder.

Lemma SFcompare_antisym (x y : spec_float) :
  SFcompare y x
  = match SFcompare x y with Some c => Some (CompOpp c) | None => None end.
Proof.
  destruct x as [sx|sx| |sx mx ex], y as [sy|sy| |sy my ey];
    try reflexivity; try (destruct sx; reflexivity); try (destruct sy; reflexivity);
    try (destruct sx, sy; reflexivity).
  pose proof (Pos.compare_cont_antisym mx my Eq) as A. cbn in A.
  cbn. destruct sx, sy; try reflexivity;
    rewrite (Z.compare_antisym ex ey); destruct (ex ?= ey)%Z; cbn; try reflexivity;
    rewrite <- A; now rewrite ?CompOpp_involutive.
Qed.

Ltac order_cases :=
  repeat match goal with
  | H : context [(?a ?= ?b)%Z] |- _ => destruct (Z.compare_spec a b); cbn in H
  | |- context [(?a ?= ?b)%Z] => destruct (Z.compare_spec a b); cbn
  | H : context [Pos.compare_cont Eq ?a ?b] |- _ =>
      change (Pos.compare_cont Eq a b) with (Pos.compare a b) in H;
      destruct (Pos.compare_spec a b); cbn in H
  | |- context [Pos.compare_cont Eq ?a ?b] =>
      change (Pos.compare_cont Eq a b) with (Pos.compare a b);
      destruct (Pos.compare_spec a b); cbn
  end.

Lemma SFleb_trans (x y z : spec_float) :
  SFleb x y = true -> SFleb y z = true -> SFleb x z = true.
Proof.
  unfold SFleb.
  destruct x as [sx|sx| |sx mx ex], y as [sy|sy| |sy my ey], z as [sz|sz| |sz mz ez];
    cbn; try discriminate; try reflexivity;
    try (destruct sx; cbn; try discriminate; try reflexivity);
    try (destruct sy; cbn; try discriminate; try reflexivity);
    try (destruct sz; cbn; try discriminate; try reflexivity);
    intros H1 H2; order_cases; try discriminate; try reflexivity; subst; try lia.
Qed.

Lemma leb_trans (x y z : float) :
  (x <=? y) = true -> (y <=? z) = true -> (x <=? z) = true.
Proof. rewrite !leb_spec. apply SFleb_trans. Qed.

(** [x < y] excludes [y < x]. *)
Lemma ltb_asym (x y : float) : (x <? y) = true -> (y <? x) = false.
Proof.
  rewrite !ltb_spec. unfold SFltb.
  rewrite (SFcompare_antisym (Prim2SF x) (Prim2SF y)).
  now destruct (SFcompare (Prim2SF x) (Prim2SF y)) as [[]|].
Qed.

(** Two numbers are comparable unless one of them is NaN. *)
Lemma not_ltb_leb (x y : float) :
  isNaN x = false -> isNaN y = false -> (x <? y) = false -> (y <=? x) = true.
Proof.
  unfold isNaN. rewrite !eqb_spec, ltb_spec, leb_spec.
  unfold SFeqb, SFltb, SFleb.
  rewrite (SFcompare_antisym (Prim2SF x) (Prim2SF y)).
  destruct (Prim2SF x) as [sx|sx| |sx mx ex], (Prim2SF y) as [sy|sy| |sy my ey];
    cbn; try discriminate; try reflexivity;
    try (destruct sx; cbn; try discriminate; try reflexivity);
    try (destruct sy; cbn; try discriminate; try reflexivity);
    intros _ _; order_cases; try discriminate; try reflexivity.
Qed.

Lemma ltb_leb (x y : float) : (x <? y) = true -> (x <=? y) = true.
Proof.
  rewrite ltb_spec, leb_spec. unfold SFltb, SFleb.
  now destruct (SFcompare _ _) as [[]|].
Qed.

End FloatOrder.

(** ** Every run of the handler *)

Section EveryRun.

Context {RT : Runtime}.
Import Route Facts.

Lemma filter_Subseq {A : Type} (f : A -> bool) (l : list A) :
  Subseq (filter f l) l.
Proof.
  induction l as [|a l IH]; cbn; [constructor|].
  destruct (f a); now constructor.
Qed.

Lemma Subseq_refl {A : Type} (l : list A) : Subseq l l.
Proof. induction l; now constructor. Qed.

Lemma geocoded_rejects (r : fetched (list GeoHit)) :
  rejects r = true <-> geocoded r = Rejected.
Proof.
  destruct r as [|res]; cbn; [tauto|].
  destruct (ok res); cbn; [|split; discriminate].
  destruct (body res) as [[|d0 rest]|]; cbn; split; congruence.
Qed.

Lemma answered_rejects (r : number) (originLat originLon : option number)
      (d : fetched (list Brewery)) :
  rejects d || unanswerable d = true <-> answered r originLat originLon d = Rejected.
Proof.
  destruct d as [|res]; cbn -[gt can_carry_body]; [tauto|].
  destruct (ok res); cbn -[gt can_carry_body].
  - rewrite orb_false_r.
    destruct (body res) as [data|]; cbn -[gt]; [|tauto].
    destruct originLat, originLon; try (split; discriminate).
    destruct (gt r 0); split; discriminate.
  - destruct (can_carry_body (status res)); cbn; split; congruence.
Qed.

(** The run, in terms of the world's two replies. *)
Lemma run_GET_in (w : World) (req : Query) :
  run w (GET req) =
  let gurl := geocodeUrl (cityOf req) (stateOf req) in
  if geocodingRejects w req then (Rejected, [GeocodeCall gurl])
  else
    (answered (radiusMilesOf req) (fst (originIn w req)) (snd (originIn w req))
              (directory w (directoryUrlIn w req)),
     (if needsGeocode req then [GeocodeCall gurl] else [])
     ++ [DirectoryCall (directoryUrlIn w req)]).
Proof.
  rewrite run_GET. unfold geocodingRejects, directoryUrlIn, originIn, needsGeocode.
  cbv zeta.
  destruct ((is_null _ || is_null _) && gt _ 0); cbn [andb fst snd]; [|reflexivity].
  destruct (geocoded _) as [geo|] eqn:E.
  - destruct (rejects _) eqn:R; [apply geocoded_rejects in R; congruence|].
    reflexivity.
  - apply geocoded_rejects in E. now rewrite E.
Qed.

(** X1: a run sends at most two requests.  The geocoder is asked exactly
    when a coordinate is missing and the radius is positive, once and before
    anything else; the directory is asked exactly once, last, unless the
    geocoding await threw, in which case it is not asked at all. *)
Theorem X1_requests_of_a_run (w : World) (req : Query) :
  let t := snd (run w (GET req)) in
  filter is_geocode_call t
  = (if needsGeocode req
     then [GeocodeCall (geocodeUrl (cityOf req) (stateOf req))] else []) /\
  filter is_directory_call t
  = (if geocodingRejects w req then []
     else [DirectoryCall (directoryUrlIn w req)]) /\
  t = filter is_geocode_call t ++ filter is_directory_call t /\
  (List.length t <= 2)%nat.
Proof.
  cbv zeta. rewrite run_GET_in. cbv zeta. unfold geocodingRejects.
  destruct (needsGeocode req); cbn [andb]; [destruct (rejects _)|];
    cbn; repeat split; lia.
Qed.

(** X2: when the handler rejects (and the framework answers for it).
    It does exactly when an await throws, the geocoding one if geocoding is
    attempted or the directory one, or when the directory's reply is a
    non-success whose status the error response cannot carry (304, or a
    status outside 200-599).  The body of a non-success reply is never
    read, so it never matters. *)
Theorem X2_when_the_handler_rejects (w : World) (req : Query) :
  fst (run w (GET req)) = Rejected <->
  geocodingRejects w req = true \/
  rejects (directory w (directoryUrlIn w req)) = true \/
  unanswerable (directory w (directoryUrlIn w req)) = true.
Proof.
  rewrite run_GET_in. cbv zeta.
  destruct (geocodingRejects w req); cbn [fst]; [tauto|].
  rewrite <- (answered_rejects (radiusMilesOf req) (fst (originIn w req))
                (snd (originIn w req))).
  rewrite orb_true_iff. split; [tauto|].
  intros [H|H]; [discriminate H|exact H].
Qed.

(** X3: the status of a response tells what its body is.  A response is
    either status 200 with a breweries list, after a success reply of the
    directory, or the error body with the directory's own status, which is
    then outside 200-299; an error never comes with a success status. *)
Theorem X3_status_matches_body (w : World) (req : Query) (r : NextResponse) :
  fst (run w (GET req)) = Resolved r ->
  exists res : response (list Brewery),
    directory w (directoryUrlIn w req) = Responded res /\
    ((ok res = true /\ res_status r = 200%Z /\
      exists o brs, res_body r = BreweriesBody o brs) \/
     (ok res = false /\ res_status r = status res /\
      ((status res < 200)%Z \/ (299 < status res)%Z) /\
      res_body r = ErrorBody "Failed to fetch breweries")).
Proof.
  rewrite run_GET_in. cbv zeta.
  destruct (geocodingRejects w req); cbn [fst]; [discriminate|].
  destruct (directory w (directoryUrlIn w req)) as [|res]; [discriminate|].
  intros H. exists res. split; [reflexivity|].
  cbn -[gt can_carry_body] in H.
  destruct (ok res) eqn:Hok; cbn -[gt can_carry_body] in H.
  - left. split; [reflexivity|].
    destruct (body res) as [data|]; [|discriminate].
    destruct (fst (originIn w req)), (snd (originIn w req));
      try destruct (gt (radiusMilesOf req) 0);
      injection H as <-; cbn; eauto.
  - right. destruct (can_carry_body (status res)); [|discriminate].
    injection H as <-. cbn. repeat split.
    unfold ok in Hok. lia.
Qed.

(** X4: the handler never adds, duplicates or reorders records.  The
    breweries of a response are the directory's list with some records left
    out, in the directory's order; without an origin in the response they
    are the directory's list, whole; with one they are the records the
    radius test passes, the origin is the one the directory was asked to
    sort by, and the radius is the query's. *)
Theorem X4_breweries_in_directory_order
        (w : World) (req : Query) (st : Z) (o : option Origin)
        (brs : list Brewery) :
  fst (run w (GET req))
  = Resolved {| res_status := st; res_body := BreweriesBody o brs |} ->
  exists (res : response (list Brewery)) (data : list Brewery),
    directory w (directoryUrlIn w req) = Responded res /\
    body res = Some data /\
    Subseq brs data /\
    match o with
    | None => brs = data
    | Some oo =>
        by_dist (directoryUrlIn w req) = Some (o_lat oo, o_lon oo) /\
        o_radiusMiles oo = radiusMilesOf req /\
        brs = filter (inRadius (o_lat oo) (o_lon oo) (o_radiusMiles oo)) data
    end.
Proof.
  rewrite run_GET_in. cbv zeta. unfold directoryUrlIn.
  destruct (geocodingRejects w req); cbn [fst]; [discriminate|].
  destruct (directory w _) as [|res]; [discriminate|].
  cbn -[gt can_carry_body]. destruct (ok res); cbn -[gt can_carry_body];
    [|destruct (can_carry_body (status res)); discriminate].
  destruct (body res) as [data|] eqn:Hb; [|discriminate].
  intros H. exists res, data. split; [reflexivity|]. split; [exact Hb|].
  destruct (fst (originIn w req)) as [olat|], (snd (originIn w req)) as [olon|];
    try destruct (gt (radiusMilesOf req) 0);
    injection H as _ <- <-; cbn;
    auto using Subseq_refl, filter_Subseq.
Qed.

End EveryRun.

(** ** Radius-filtered queries *)

Section RadiusQueries.

Context {RT : Runtime}.
Import Route Facts.

(** An origin with both coordinates means geocoding, if attempted, did not
    throw. *)
Lemma resolved_origin_no_rejection (w : World) (req : Query) (olat olon : number) :
  originIn w req = (Some olat, Some olon) -> geocodingRejects w req = false.
Proof.
  unfold originIn, geocodingRejects. cbv zeta.
  destruct (needsGeocode req) eqn:N; [|reflexivity]. cbn [andb].
  destruct (rejects _) eqn:R; [|reflexivity].
  apply geocoded_rejects in R. rewrite R. cbn [fst snd].
  unfold needsGeocode in N.
  destruct (number_or_null (q_lat req)), (number_or_null (q_lon req));
    cbn in N; congruence.
Qed.

(** C1: for every query whose origin is resolved (both coordinates
    supplied, or the place geocoded) and whose radius is positive, when the
    directory replies successfully the response carries that origin and
    radius, and its breweries are records of the directory's list, in its
    order, each with number-typed latitude and longitude whose
    [milesBetween] distance from the origin is [<=] the radius.  A record
    of the list is returned exactly when it is such; so a record without
    number-typed coordinates never is. *)
Theorem C1_filtered_records_within_radius
        (w : World) (req : Query) (olat olon : number)
        (res : response (list Brewery)) (data : list Brewery) :
  originIn w req = (Some olat, Some olon) ->
  gt (radiusMilesOf req) 0 = true ->
  directory w (directoryUrlIn w req) = Responded res ->
  ok res = true -> body res = Some data ->
  let within (b : Brewery) :=
    exists blat blon,
      latitude b = VNum blat /\ longitude b = VNum blon /\
      le (milesBetween olat olon blat blon) (radiusMilesOf req) = true in
  exists brs : list Brewery,
    fst (run w (GET req))
    = Resolved {| res_status := 200;
                  res_body := BreweriesBody
                    (Some {| o_lat := olat; o_lon := olon;
                             o_radiusMiles := radiusMilesOf req |})
                    brs |} /\
    Subseq brs data /\
    Forall within brs /\
    (forall b, In b data -> (In b brs <-> within b)).
Proof.
  intros Ho Hr Hd Hok Hb within.
  exists (filter (inRadius olat olon (radiusMilesOf req)) data).
  split; [|split; [|split]].
  - rewrite run_GET_in. cbv zeta.
    rewrite (resolved_origin_no_rejection w req Ho). cbn [fst].
    rewrite Hd, Ho. cbn [fst snd]. now apply answered_filter.
  - apply filter_Subseq.
  - apply Forall_forall. intros b [_ Hin]%filter_In.
    now apply inRadius_true.
  - intros b Hin. rewrite filter_In, inRadius_true. tauto.
Qed.

End RadiusQueries.

(** C1, witnessed: Denver, a record ten miles north of it, Los Angeles
    (some 830 miles away), a record with text coordinates and one with none,
    searched within 30 miles of Denver: the first two come back. *)
Lemma C1_witness :
  let within (b : Brewery) :=
    exists blat blon,
      latitude b = VNum blat /\ longitude b = VNum blon /\
      le (Route.milesBetween (RT := Ref.runtime) 39.7392 (-104.9903) blat blon) 30
      = true in
  (exists brs : list Brewery,
      fst (run Cases.nearAndFar (Route.GET (RT := Ref.runtime) Scenario.byCoords))
      = Resolved {| Route.res_status := 200;
                    Route.res_body := Route.BreweriesBody
                      (Some {| Route.o_lat := 39.7392; Route.o_lon := -104.9903;
                               Route.o_radiusMiles := 30 |})
                      brs |} /\
      Facts.Subseq brs [Scenario.denver; Cases.northglenn; Scenario.losAngeles;
                        Scenario.denverText; Scenario.unlocated] /\
      Forall within brs /\
      (forall b, In b [Scenario.denver; Cases.northglenn; Scenario.losAngeles;
                       Scenario.denverText; Scenario.unlocated] ->
                 (In b brs <-> within b))) /\
  fst (run Cases.nearAndFar (Route.GET (RT := Ref.runtime) Scenario.byCoords))
  = Resolved {| Route.res_status := 200;
                Route.res_body := Route.BreweriesBody
                  (Some {| Route.o_lat := 39.7392; Route.o_lon := -104.9903;
                           Route.o_radiusMiles := 30 |})
                  [Scenario.denver; Cases.northglenn] |} /\
  (10 <? Route.milesBetween (RT := Ref.runtime) 39.7392 (-104.9903) 39.8853 (-104.9872))
  = true /\
  (829 <? Route.milesBetween (RT := Ref.runtime) 39.7392 (-104.9903) 34.0522 (-118.2437))
  = true /\
  (Route.milesBetween (RT := Ref.runtime) 39.7392 (-104.9903) 34.0522 (-118.2437) <? 831)
  = true.
Proof.
  intros within. split.
  - exact (@C1_filtered_records_within_radius Ref.runtime Cases.nearAndFar
             Scenario.byCoords 39.7392 (-104.9903)
             {| status := 200;
                body := Some [Scenario.denver; Cases.northglenn; Scenario.losAngeles;
                              Scenario.denverText; Scenario.unlocated] |}
             [Scenario.denver; Cases.northglenn; Scenario.losAngeles;
              Scenario.denverText; Scenario.unlocated]
             eq_refl eq_refl eq_refl eq_refl eq_refl).
  - repeat split.
Defined.

(** X3, witnessed: the directory answers 503. *)
Lemma X3_witness :
  exists res : response (list Brewery),
    directory Scenario.directoryDown
      (Facts.directoryUrlIn (RT := Ref.runtime) Scenario.directoryDown Scenario.byCoords)
    = Responded res /\
    ((ok res = true /\ 503%Z = 200%Z /\
      exists o brs, Route.ErrorBody "Failed to fetch breweries"
                    = Route.BreweriesBody o brs) \/
     (ok res = false /\ 503%Z = status res /\
      ((status res < 200)%Z \/ (299 < status res)%Z) /\
      Route.ErrorBody "Failed to fetch breweries"
      = Route.ErrorBody "Failed to fetch breweries")).
Proof.
  exact (@X3_status_matches_body Ref.runtime Scenario.directoryDown
           Scenario.byCoords
           {| Route.res_status := 503;
              Route.res_body := Route.ErrorBody "Failed to fetch breweries" |}
           eq_refl).
Defined.

(** X4, witnessed: the 30-mile search around Denver keeps Denver out of
    the four records of the catalogue. *)
Lemma X4_witness :
  exists (res : response (list Brewery)) (data : list Brewery),
    directory Scenario.healthy
      (Facts.directoryUrlIn (RT := Ref.runtime) Scenario.healthy Scenario.byCoords)
    = Responded res /\
    body res = Some data /\
    Facts.Subseq [Scenario.denver] data /\
    by_dist (Facts.directoryUrlIn (RT := Ref.runtime) Scenario.healthy Scenario.byCoords)
    = Some (39.7392, -104.9903) /\
    30 = Route.radiusMilesOf (RT := Ref.runtime) Scenario.byCoords /\
    [Scenario.denver]
    = filter (Route.inRadius (RT := Ref.runtime) 39.7392 (-104.9903) 30) data.
Proof.
  exact (@X4_breweries_in_directory_order Ref.runtime Scenario.healthy
           Scenario.byCoords 200
           (Some {| Route.o_lat := 39.7392; Route.o_lon := -104.9903;
                    Route.o_radiusMiles := 30 |})
           [Scenario.denver] eq_refl).
Defined.

(** ** Parameters of the query *)

Section Parameters.

Context {RT : Runtime}.
Import Route Facts.

Lemma leb_not_nan (x y : float) : (x <=? y) = true -> isNaN x = false.
Proof.
  unfold isNaN. rewrite leb_spec, eqb_spec. unfold SFleb, SFeqb.
  destruct (Prim2SF x) as [sx|sx| |sx mx ex], (Prim2SF y) as [sy|sy| |sy my ey];
    cbn; try discriminate; try reflexivity; try (now destruct sx);
    intros _; destruct sx; now rewrite Z.compare_refl, Pos.compare_cont_refl.
Qed.

Lemma ltb_not_leb (x y : float) : (x <? y) = true -> (y <=? x) = false.
Proof.
  rewrite ltb_spec, leb_spec. unfold SFltb, SFleb.
  rewrite (SFcompare_antisym (Prim2SF x) (Prim2SF y)).
  now destruct (SFcompare (Prim2SF x) (Prim2SF y)) as [[]|].
Qed.

Lemma leb_not_ltb_eqb (x y : float) :
  (x <=? y) = true -> (x <? y) = false -> (y =? x) = true.
Proof.
  rewrite leb_spec, ltb_spec, eqb_spec. unfold SFleb, SFltb, SFeqb.
  rewrite (SFcompare_antisym (Prim2SF x) (Prim2SF y)).
  now destruct (SFcompare (Prim2SF x) (Prim2SF y)) as [[]|].
Qed.

Lemma Math_min_200_cap (p : number) : gt (Math_min p 200) 200 = false.
Proof.
  unfold gt, Math_min.
  destruct (isNaN p || isNaN 200); [reflexivity|].
  destruct (p <? 200) eqn:L; [now apply ltb_asym|].
  destruct (200 <? p) eqn:G; [reflexivity|].
  now destruct (classify p).
Qed.

Lemma Math_min_200_below (p : number) :
  le p 200 = true -> (Math_min p 200 =? p) = true.
Proof.
  unfold le, Math_min. intros H.
  pose proof (leb_not_nan H) as N.
  assert (R : (p =? p) = true) by (unfold isNaN in N; now destruct (p =? p)).
  rewrite N. cbn [orb]. change (isNaN 200) with false. cbv iota.
  destruct (p <? 200) eqn:L; [exact R|].
  destruct (200 <? p) eqn:G.
  - apply ltb_not_leb in G. congruence.
  - destruct (classify p); auto using leb_not_ltb_eqb.
Qed.

Lemma Math_min_200_above (p : number) :
  gt p 200 = true -> Math_min p 200 = 200.
Proof.
  unfold gt, Math_min. intros G.
  assert (N : isNaN p = false).
  { destruct (isNaN p) eqn:E; [|reflexivity].
    apply isNaN_nan in E. subst p. discriminate G. }
  rewrite N. cbn [orb]. change (isNaN 200) with false. cbv iota.
  rewrite (ltb_asym G). now rewrite G.
Qed.

(** X5: the page size asked of the directory is the query's [per_page]
    (200 when absent or blank) capped at 200: never above 200, the
    parameter's own value up to 200, and 200 beyond. *)
Theorem X5_page_size_capped (w : World) (req : Query) (rq : DirRequest) :
  In (DirectoryCall rq) (snd (run w (GET req))) ->
  let p := Number_of_string (or_default (q_per_page req) "200") in
  gt (per_page rq) 200 = false /\
  (le p 200 = true -> (per_page rq =? p) = true) /\
  (gt p 200 = true -> per_page rq = 200).
Proof.
  rewrite run_GET_in. cbv zeta.
  assert (E : per_page (directoryUrlIn w req)
              = Math_min (Number_of_string (or_default (q_per_page req) "200")) 200).
  { unfold directoryUrlIn, directoryUrl.
    now destruct (fst (originIn w req)), (snd (originIn w req)). }
  intros Hin.
  assert (Hrq : rq = directoryUrlIn w req).
  { destruct (geocodingRejects w req); cbn [snd] in Hin.
    - destruct Hin as [H|[]]. discriminate H.
    - apply in_app_or in Hin as [Hin|[H|[]]]; [|congruence].
      destruct (needsGeocode req); [destruct Hin as [H|[]]; discriminate H|].
      destruct Hin. }
  subst rq. rewrite E.
  auto using Math_min_200_cap, Math_min_200_below, Math_min_200_above.
Qed.

Lemma or_default_absentIfBlank (p : option string) (d : string) :
  or_default (absentIfBlank p) d = or_default p d.
Proof. destruct p as [[|c s]|]; reflexivity. Qed.

Lemma number_or_null_absentIfBlank (p : option string) :
  number_or_null (absentIfBlank p) = number_or_null p.
Proof. destruct p as [[|c s]|]; reflexivity. Qed.

(** X6: a parameter given as the empty string ([?city=&lat=]) is read as
    a parameter not given: the handler is the same program on both
    queries, for all six parameters. *)
Theorem X6_blank_parameter_is_absent (req : Query) :
  GET (withoutBlanks req) = GET req.
Proof.
  unfold GET, withoutBlanks.
  cbn [q_city q_state q_lat q_lon q_radius q_per_page].
  now rewrite !or_default_absentIfBlank, !number_or_null_absentIfBlank.
Qed.

Lemma leb_zero_not_gt (r : number) : le r 0 = true -> gt r 0 = false.
Proof.
  unfold le, gt. intros H.
  destruct (0 <? r) eqn:G; [|reflexivity].
  apply ltb_not_leb in G. congruence.
Qed.

Lemma nan_not_gt (r : number) : isNaN r = true -> gt r 0 = false.
Proof. intros H. apply isNaN_nan in H. now subst r. Qed.

(** X7: a radius that is zero, negative or not a number switches the
    radius search off altogether.  Nothing is geocoded, even with no
    coordinates; the only request is the directory one, built from the
    parameters as supplied; and a breweries response carries no origin and
    holds the directory's list, whole. *)
Theorem X7_no_positive_radius_no_search (w : World) (req : Query) :
  le (radiusMilesOf req) 0 = true \/ isNaN (radiusMilesOf req) = true ->
  let url := directoryUrl (perPageOf req) (number_or_null (q_lat req))
                          (number_or_null (q_lon req)) (cityOf req) (stateOf req) in
  snd (run w (GET req)) = [DirectoryCall url] /\
  forall (st : Z) (o : option Origin) (brs : list Brewery),
    fst (run w (GET req))
    = Resolved {| res_status := st; res_body := BreweriesBody o brs |} ->
    o = None /\
    exists res, directory w url = Responded res /\ body res = Some brs.
Proof.
  intros Hr url.
  assert (G : gt (radiusMilesOf req) 0 = false)
    by (destruct Hr; auto using leb_zero_not_gt, nan_not_gt).
  rewrite run_GET. cbv zeta. rewrite G, andb_false_r. cbn [fst snd]. fold url.
  split; [reflexivity|].
  intros st o brs H.
  destruct (directory w url) as [|res]; [discriminate|].
  cbn -[gt can_carry_body] in H.
  destruct (ok res); cbn -[gt can_carry_body] in H;
    [|destruct (can_carry_body (status res)); discriminate].
  destruct (body res) as [data|] eqn:Hb; [|discriminate].
  rewrite G in H.
  destruct (number_or_null (q_lat req)), (number_or_null (q_lon req));
    injection H as _ <- <-; eauto.
Qed.

End Parameters.

(** X5, witnessed: [per_page=500] is sent on as 200. *)
Lemma X5_witness :
  gt 200 200 = false /\
  (le 500 200 = true -> (200 =? 500) = true) /\
  (gt 500 200 = true ->
   per_page (Route.directoryUrl 200 (Some 39.7392) (Some (-104.9903))
                                "Denver" "Colorado") = 200).
Proof.
  apply (@X5_page_size_capped Ref.runtime Scenario.healthy Cases.bigPage
           (Route.directoryUrl 200 (Some 39.7392) (Some (-104.9903))
                               "Denver" "Colorado")).
  vm_compute. left. reflexivity.
Defined.

(** X7, witnessed: [radius=-5] and no coordinates. *)
Lemma X7_witness :
  snd (run Scenario.healthy (Route.GET (RT := Ref.runtime) Cases.negativeRadius))
  = [DirectoryCall (Route.directoryUrl 200 None None "Boulder" "Colorado")] /\
  (None : option Route.Origin) = None /\
  exists res,
    directory Scenario.healthy
      (Route.directoryUrl 200 None None "Boulder" "Colorado") = Responded res /\
    body res = Some Scenario.catalogue.
Proof.
  pose proof (@X7_no_positive_radius_no_search Ref.runtime Scenario.healthy
                Cases.negativeRadius (or_introl eq_refl)) as (Ht & Hres).
  split; [exact Ht|].
  exact (Hres 200%Z None Scenario.catalogue eq_refl).
Defined.

(** ** Distance zero and growing radii *)

Section Distances.

Context {RT : Runtime}.
Import Route Facts.

Lemma sub_self (x : float) : isFinite x = true -> x - x = 0.
Proof.
  unfold isFinite. rewrite ltb_spec, abs_spec. intros H.
  apply Prim2SF_inj. rewrite sub_spec.
  destruct (Prim2SF x) as [s|s| |s m e].
  - now destruct s.
  - discriminate H.
  - discriminate H.
  - unfold SF64sub, SFsub. now rewrite Z.sub_diag.
Qed.

(** A square is never negative, not even a negative zero. *)
Lemma square_sign (c : float) :
  match Prim2SF (c * c) with
  | S754_zero s | S754_infinity s | S754_finite s _ _ => s = false
  | S754_nan => True
  end.
Proof.
  rewrite mul_spec.
  destruct (Prim2SF c) as [s|s| |s m e]; cbn -[binary_round_aux];
    try exact I; try (now destruct s).
  replace (xorb s s) with false by now destruct s.
  unfold binary_round_aux.
  destruct (shr_fexp prec emax _ _ _) as [mrs' e'].
  destruct (shr_fexp prec emax _ e' loc_Exact) as [mrs'' e''].
  destruct (shr_m mrs''); try exact I; try reflexivity.
  now destruct (e'' <=? emax - prec)%Z.
Qed.

Lemma square_times_zero (c : float) :
  isFinite (c * c) = true -> c * c * 0 = 0.
Proof.
  unfold isFinite. rewrite ltb_spec, abs_spec. intros H.
  apply Prim2SF_inj. rewrite (mul_spec (c * c) 0).
  pose proof (square_sign c) as S.
  destruct (Prim2SF (c * c)) as [s|s| |s m e]; try discriminate H;
    subst; reflexivity.
Qed.

Lemma milesBetween_same_point (lat lon : number) :
  Math_sin 0 = 0 -> pow2 0 = 0 -> Math_asin 0 = 0 ->
  isFinite lat = true -> isFinite lon = true ->
  isFinite (Math_cos (toRad lat) * Math_cos (toRad lat)) = true ->
  milesBetween lat lon lat lon = 0.
Proof.
  intros Hsin Hpow Hasin Flat Flon Fcos.
  rewrite milesBetween_haversine. unfold haversine.
  rewrite (sub_self Flat), (sub_self Flon).
  change (toRad 0 / 2) with 0. rewrite Hsin, Hpow.
  rewrite (square_times_zero Fcos).
  change (Math_sqrt (0 + 0)) with 0. now rewrite Hasin.
Qed.

(** X8: the distance from a point to itself is zero.  On an engine with
    [sin 0 = 0], [0 ** 2 = 0] and [asin 0 = 0], for finite coordinates whose
    cosine has a finite square, [milesBetween] of a point with itself is
    exactly 0, so a record located at the origin passes the radius test for
    every radius that is not negative. *)
Theorem X8_zero_distance_to_itself
        (lat lon r : number) (b : Brewery) :
  Math_sin 0 = 0 -> pow2 0 = 0 -> Math_asin 0 = 0 ->
  isFinite lat = true -> isFinite lon = true ->
  isFinite (Math_cos (toRad lat) * Math_cos (toRad lat)) = true ->
  milesBetween lat lon lat lon = 0 /\
  (le 0 r = true -> latitude b = VNum lat -> longitude b = VNum lon ->
   inRadius lat lon r b = true).
Proof.
  intros Hsin Hpow Hasin Flat Flon Fcos.
  assert (E := milesBetween_same_point Hsin Hpow Hasin Flat Flon Fcos).
  split; [exact E|].
  intros Hr Hlat Hlon. apply inRadius_true.
  exists lat, lon. now rewrite E.
Qed.

Lemma filter_filter_implied {A : Type} (f g : A -> bool) (l : list A) :
  (forall a, f a = true -> g a = true) ->
  filter f (filter g l) = filter f l.
Proof.
  intros H. induction l as [|a l IH]; [reflexivity|].
  cbn. destruct (g a) eqn:G; cbn.
  - now rewrite IH.
  - destruct (f a) eqn:F; [|exact IH].
    apply H in F. congruence.
Qed.

(** X9: widening the radius never loses a record.  For [r1 <= r2],
    whatever passes the test at [r1] passes at [r2], and filtering the wide
    result at [r1] gives the narrow result, so the narrow list is the wide
    one with records left out. *)
Theorem X9_wider_radius_keeps_more
        (olat olon r1 r2 : number) (data : list Brewery) :
  le r1 r2 = true ->
  (forall b, inRadius olat olon r1 b = true -> inRadius olat olon r2 b = true) /\
  filter (inRadius olat olon r1) (filter (inRadius olat olon r2) data)
  = filter (inRadius olat olon r1) data /\
  Subseq (filter (inRadius olat olon r1) data)
         (filter (inRadius olat olon r2) data).
Proof.
  intros Hr.
  assert (M : forall b, inRadius olat olon r1 b = true ->
                        inRadius olat olon r2 b = true).
  { intros b [blat [blon (Hlat & Hlon & Hd)]]%inRadius_true.
    apply inRadius_true. exists blat, blon. repeat split; try assumption.
    exact (leb_trans Hd Hr). }
  split; [exact M|].
  assert (E := @filter_filter_implied _ _ _ data M).
  split; [exact E|]. rewrite <- E. apply filter_Subseq.
Qed.

End Distances.

(** X8, witnessed: Denver to Denver on the reference engine. *)
Lemma X8_witness :
  Route.milesBetween (RT := Ref.runtime) 39.7392 (-104.9903) 39.7392 (-104.9903) = 0 /\
  (le 0 1 = true -> latitude Scenario.denver = VNum 39.7392 ->
   longitude Scenario.denver = VNum (-104.9903) ->
   Route.inRadius (RT := Ref.runtime) 39.7392 (-104.9903) 1 Scenario.denver = true).
Proof.
  exact (@X8_zero_distance_to_itself Ref.runtime 39.7392 (-104.9903) 1
           Scenario.denver eq_refl eq_refl eq_refl eq_refl eq_refl eq_refl).
Defined.

(** X9, witnessed: 5 miles and 30 miles around Denver. *)
Lemma X9_witness :
  filter (Route.inRadius (RT := Ref.runtime) 39.7392 (-104.9903) 5)
         (filter (Route.inRadius (RT := Ref.runtime) 39.7392 (-104.9903) 30)
                 [Scenario.denver; Cases.northglenn; Scenario.losAngeles])
  = filter (Route.inRadius (RT := Ref.runtime) 39.7392 (-104.9903) 5)
           [Scenario.denver; Cases.northglenn; Scenario.losAngeles].
Proof.
  exact (proj1 (proj2 (@X9_wider_radius_keeps_more Ref.runtime 39.7392 (-104.9903)
                         5 30
                         [Scenario.denver; Cases.northglenn; Scenario.losAngeles]
                         eq_refl))).
Defined.

(** ** The client: fetching *)

Section ClientFetch.

Context {RT : Runtime}.
Variable String_of_number : number -> string.
Import Route Facts Client.

(** X10: how the client's fetches end, whatever the state before.  Both
    fetch functions leave [loading] false and the user location set to the
    searched point (none for a city search).  What they show is decided by
    the reply to their own request: an array, or an object's [breweries],
    is shown with no error; an object without [breweries], or a scalar,
    gives an empty list with no error; a rejected fetch, a body that is not
    JSON, or [null] give the message "Error fetching breweries." and an
    empty list, so results never stay on screen beside that message.  A
    location that is unsupported or refused only sets its own message and
    keeps list, spinner and user location.  None of them touches the form
    fields or the selected marker. *)
Theorem X10_how_fetches_end
        (api : Query -> ApiReply) (s : UiState)
        (nextCity nextState : string) (lat lon radiusMiles : number) :
  let ended (reply : ApiReply) (loc : option (number * number)) (s' : UiState) :=
    ui_loading s' = false /\ ui_userLoc s' = loc /\
    match reply with
    | ApiJsonOf (JArray l) | ApiJsonOf (JObject (Some l)) =>
        ui_error s' = None /\ ui_breweries s' = l
    | ApiJsonOf (JObject None) | ApiJsonOf JScalar =>
        ui_error s' = None /\ ui_breweries s' = []
    | ApiThrew | ApiJsonOf JNull =>
        ui_error s' = Some "Error fetching breweries." /\ ui_breweries s' = []
    end /\
    ui_city s' = ui_city s /\ ui_stateName s' = ui_stateName s /\
    ui_selected s' = ui_selected s in
  let kept (msg : string) (s' : UiState) :=
    ui_error s' = Some msg /\ ui_breweries s' = ui_breweries s /\
    ui_loading s' = ui_loading s /\ ui_userLoc s' = ui_userLoc s /\
    ui_city s' = ui_city s /\ ui_stateName s' = ui_stateName s /\
    ui_selected s' = ui_selected s in
  ended (api (cityQuery nextCity nextState)) None
        (fetchBreweries api nextCity nextState s) /\
  ended (api (coordsQuery String_of_number lat lon radiusMiles)) (Some (lat, lon))
        (fetchBreweriesByCoords String_of_number api lat lon radiusMiles s) /\
  ended (api (coordsQuery String_of_number lat lon 30)) (Some (lat, lon))
        (useMyLocation String_of_number api (Position lat lon) s) /\
  kept "Geolocation not supported."
       (useMyLocation String_of_number api Unsupported s) /\
  kept "Could not get your location."
       (useMyLocation String_of_number api Refused s).
Proof.
  cbv zeta. unfold useMyLocation, fetchBreweries, fetchBreweriesByCoords, settleFetch.
  split; [|split; [|split; [|split]]];
    try (repeat split; reflexivity);
    match goal with
    | |- context [api ?q] =>
        destruct (api q) as [|[l|[l|]| |]]; cbn; repeat split; reflexivity
    end.
Qed.

(** X11: a failing directory is not reported to the user.  When the
    directory answers the request of a city search with a status from 300
    to 599 other than 304, the route resolves to its error body with that
    status; the client, which receives that answer and does not look at the
    status, ends with an empty list and no error message. *)
Theorem X11_directory_failure_is_silent
        (w : World) (api : Query -> ApiReply) (s : UiState)
        (nextCity nextState : string) (res : response (list Brewery)) :
  let q := cityQuery nextCity nextState in
  (forall r, fst (run w (GET q)) = Resolved r -> api q = ApiJsonOf (apiJsonOf r)) ->
  geocodingRejects w q = false ->
  directory w (directoryUrlIn w q) = Responded res ->
  (300 <= status res <= 599)%Z -> status res <> 304%Z ->
  let s' := fetchBreweries api nextCity nextState s in
  fst (run w (GET q))
  = Resolved {| res_status := status res;
                res_body := ErrorBody "Failed to fetch breweries" |} /\
  ui_breweries s' = [] /\ ui_error s' = None /\ ui_loading s' = false.
Proof.
  intros q Hapi Hgeo Hdir Hst H304 s'.
  assert (Hok : ok res = false) by (unfold ok; lia).
  assert (Hrun : fst (run w (GET q))
                 = Resolved {| res_status := status res;
                               res_body := ErrorBody "Failed to fetch breweries" |}).
  { rewrite run_GET_in. cbv zeta. rewrite Hgeo. cbn [fst]. rewrite Hdir.
    apply answered_failure; auto using can_carry_body_failure. }
  split; [exact Hrun|].
  subst s'. unfold fetchBreweries. fold q. rewrite (Hapi _ Hrun).
  repeat split.
Qed.

(** X12: a city search from the client always has the place geocoded.
    The client sends no radius, so the route falls back on "30"; on an
    engine that reads "30" as a positive number the run starts with the
    one geocoding request for [city, state, USA], where a field left empty
    in the form is replaced by Denver or Colorado, and the directory is
    asked for 50 records a page at most. *)
Theorem X12_city_search_is_geocoded
        (w : World) (nextCity nextState : string) :
  gt (Number_of_string "30") 0 = true ->
  let q := cityQuery nextCity nextState in
  filter is_geocode_call (snd (run w (GET q)))
  = [GeocodeCall (geocodeUrl (if truthy_string nextCity then nextCity else "Denver")
                             (if truthy_string nextState then nextState
                              else "Colorado"))] /\
  radiusMilesOf q = Number_of_string "30" /\
  forall rq, In (DirectoryCall rq) (snd (run w (GET q))) ->
             per_page rq = Math_min (Number_of_string "50") 200.
Proof.
  intros H30 q.
  assert (Hneed : needsGeocode q = true) by exact H30.
  rewrite run_GET_in. cbv zeta. rewrite Hneed.
  destruct (geocodingRejects w q); cbn [snd app filter is_geocode_call];
    (split; [reflexivity|]); (split; [reflexivity|]); intros rq Hin.
  - destruct Hin as [Hin|[]]. discriminate Hin.
  - destruct Hin as [Hin|[Hin|[]]]; [discriminate Hin|].
    injection Hin as <-. unfold directoryUrlIn, directoryUrl.
    now destruct (fst (originIn w q)), (snd (originIn w q)).
Qed.

(** X13: a search by location is a search around that location.  When
    [String] and [Number] round-trip on the latitude, the longitude and the
    radius, and the radius is positive, the route does not geocode: its one
    request asks the directory to sort by distance from the user's point,
    and a successful reply comes back filtered around that very point, the
    one the client keeps as the user location.  A latitude or longitude of
    0 is a point like any other here. *)
Theorem X13_location_search_round_trip
        (w : World) (api : Query -> ApiReply) (s : UiState)
        (lat lon radiusMiles : number) :
  (forall x, x = lat \/ x = lon \/ x = radiusMiles ->
             Number_of_string (String_of_number x) = x /\
             truthy_string (String_of_number x) = true) ->
  gt radiusMiles 0 = true ->
  let q := coordsQuery String_of_number lat lon radiusMiles in
  let url := directoryUrl (Math_min (Number_of_string "200") 200)
                          (Some lat) (Some lon) "Denver" "Colorado" in
  snd (run w (GET q)) = [DirectoryCall url] /\
  by_dist url = Some (lat, lon) /\
  ui_userLoc (fetchBreweriesByCoords String_of_number api lat lon radiusMiles s)
  = Some (lat, lon) /\
  forall (res : response (list Brewery)) (data : list Brewery),
    directory w url = Responded res -> ok res = true -> body res = Some data ->
    fst (run w (GET q))
    = Resolved {| res_status := 200;
                  res_body := BreweriesBody
                    (Some {| o_lat := lat; o_lon := lon;
                             o_radiusMiles := radiusMiles |})
                    (filter (inRadius lat lon radiusMiles) data) |}.
Proof.
  intros Hrt Hr q url.
  destruct (Hrt lat (or_introl eq_refl)) as [Nlat Tlat].
  destruct (Hrt lon (or_intror (or_introl eq_refl))) as [Nlon Tlon].
  destruct (Hrt radiusMiles (or_intror (or_intror eq_refl))) as [Nr Tr].
  assert (Hrad : radiusMilesOf q = radiusMiles).
  { unfold radiusMilesOf, q, coordsQuery. cbn [q_radius or_default].
    now rewrite Tr. }
  assert (Hrun : run w (GET q)
                 = (answered radiusMiles (Some lat) (Some lon) (directory w url),
                    [DirectoryCall url])).
  { assert (Hlat : number_or_null (q_lat q) = Some lat)
      by (cbn [q coordsQuery q_lat number_or_null]; now rewrite Tlat, Nlat).
    assert (Hlon : number_or_null (q_lon q) = Some lon)
      by (cbn [q coordsQuery q_lon number_or_null]; now rewrite Tlon, Nlon).
    rewrite run_GET. cbv zeta. rewrite Hrad, Hlat, Hlon.
    cbn [is_null orb andb fst snd]. reflexivity. }
  rewrite Hrun. cbn [fst snd]. repeat (split; [reflexivity|]).
  split.
  - unfold fetchBreweriesByCoords, settleFetch.
    destruct (api _) as [|j]; [reflexivity|]. now destruct (breweriesOf j).
  - intros res data Hd Hok Hb. rewrite Hd. now apply answered_filter.
Qed.

End ClientFetch.

(** X11, witnessed: the directory answers 503 to the first city search. *)
Lemma X11_witness :
  let s' := Client.fetchBreweries (Cases.served Scenario.directoryDown)
                                  "Denver" "Colorado" Client.initial in
  fst (run Scenario.directoryDown
           (Route.GET (RT := Ref.runtime) (Client.cityQuery "Denver" "Colorado")))
  = Resolved {| Route.res_status := 503;
                Route.res_body := Route.ErrorBody "Failed to fetch breweries" |} /\
  Client.ui_breweries s' = [] /\ Client.ui_error s' = None /\
  Client.ui_loading s' = false.
Proof.
  apply (@X11_directory_failure_is_silent Ref.runtime Scenario.directoryDown
           (Cases.served Scenario.directoryDown) Client.initial
           "Denver" "Colorado" {| status := 503; body := None |}).
  - intros r H. unfold Cases.served. now rewrite H.
  - reflexivity.
  - reflexivity.
  - cbn. lia.
  - discriminate.
Defined.

(** X12, witnessed: both form fields left empty. *)
Lemma X12_witness :
  filter Facts.is_geocode_call
         (snd (run Scenario.healthy
                   (Route.GET (RT := Ref.runtime)
                              (Client.cityQuery EmptyString EmptyString))))
  = [GeocodeCall (Route.geocodeUrl "Denver" "Colorado")].
Proof.
  exact (proj1 (@X12_city_search_is_geocoded Ref.runtime Scenario.healthy
                  EmptyString EmptyString eq_refl)).
Defined.

(** X13, witnessed: a user at (40, -105), within 30 miles. *)
Lemma X13_witness :
  snd (run Scenario.healthy
           (Route.GET (RT := Ref.runtime)
                      (Client.coordsQuery Cases.stringOfInteger 40 (-105) 30)))
  = [DirectoryCall (Route.directoryUrl 200 (Some 40) (Some (-105))
                                       "Denver" "Colorado")].
Proof.
  refine (proj1 (@X13_location_search_round_trip Ref.runtime
                   Cases.stringOfInteger Scenario.healthy
                   (Cases.served Scenario.healthy) Client.initial
                   40 (-105) 30 _ eq_refl)).
  intros x [ -> | [ -> | -> ] ]; split; reflexivity.
Defined.

(** ** The client: what reaches the map *)

Section ClientMap.

Context {RT : Runtime}.
Variable String_of_number : number -> string.
Import Route Facts Client MapView.

(** X14: when the map is refitted.  [FitBounds] leaves the map alone
    exactly when there is neither a located brewery nor a user location,
    and otherwise fits the breweries' points followed by the user's.  So
    after a city search that failed the map is not moved, and after a
    search by location it is always refitted, the user's point included,
    even when nothing was found. *)
Theorem X14_when_the_map_is_refitted
        (api : Query -> ApiReply) (s : UiState)
        (points : list Brewery) (origin : option (number * number))
        (nextCity nextState : string) (lat lon radiusMiles : number) :
  (fitBounds points origin = None <-> points = [] /\ origin = None) /\
  (forall all, fitBounds points origin = Some all ->
               all = map latLng points
                     ++ match origin with Some o => [o] | None => [] end) /\
  (let s' := fetchBreweries api nextCity nextState s in
   ui_error s' <> None ->
   fitBounds (breweriesWithCoords (ui_breweries s')) (ui_userLoc s') = None) /\
  (let s' := fetchBreweriesByCoords String_of_number api lat lon radiusMiles s in
   fitBounds (breweriesWithCoords (ui_breweries s')) (ui_userLoc s')
   = Some (map latLng (breweriesWithCoords (ui_breweries s')) ++ [(lat, lon)])).
Proof.
  split; [|split; [|split]].
  - unfold fitBounds. destruct points as [|p ps], origin as [o|]; cbn;
      split; try discriminate; try tauto;
      intros [H1 H2]; discriminate.
  - unfold fitBounds. intros all.
    destruct (map latLng points ++ _) as [|a l] eqn:E; [discriminate|].
    now intros [= <-].
  - cbv zeta. unfold fetchBreweries, settleFetch.
    destruct (api _) as [|j]; cbn; [reflexivity|].
    destruct (breweriesOf j); cbn; [intros H; now elim H|reflexivity].
  - cbv zeta. unfold fetchBreweriesByCoords, settleFetch.
    assert (F : forall l, fitBounds l (Some (lat, lon))
                          = Some (map latLng l ++ [(lat, lon)])).
    { intros l. unfold fitBounds.
      destruct (map latLng l ++ [(lat, lon)]) as [|a t] eqn:E; [|reflexivity].
      now destruct (map latLng l). }
    destruct (api _) as [|j]; cbn [ui_breweries ui_userLoc inFlight]; [apply F|].
    destruct (breweriesOf j); cbn [ui_breweries ui_userLoc inFlight]; apply F.
Qed.

Lemma ltb_irrefl (x : float) : (x <? x) = false.
Proof.
  destruct (x <? x) eqn:E; [|reflexivity].
  pose proof (ltb_asym E). congruence.
Qed.

Lemma leb_refl (x : float) : isNaN x = false -> (x <=? x) = true.
Proof. intros N. apply not_ltb_leb; auto using ltb_irrefl. Qed.

(** X15: selecting a brewery never zooms the map out.  [FlyTo] does
    nothing without a selection; with one it centres on it at the current
    zoom or at 14, whichever is larger, so for a zoom that is a number the
    new zoom is at least 14 and at least the current one. *)
Theorem X15_selection_never_zooms_out (t : number * number) (zoom : number) :
  isNaN zoom = false ->
  flyTo None zoom = None /\
  exists z,
    flyTo (Some t) zoom = Some (t, z) /\
    (z = zoom \/ z = 14) /\ le 14 z = true /\ le zoom z = true.
Proof.
  intros N. split; [reflexivity|].
  exists (Math_max zoom 14). split; [reflexivity|].
  unfold Math_max, le. rewrite N. cbn [orb]. change (isNaN 14) with false. cbv iota.
  destruct (14 <? zoom) eqn:G.
  - auto using ltb_leb, leb_refl.
  - destruct (zoom <? 14) eqn:L.
    + auto using ltb_leb.
    + assert (A : (14 <=? zoom) = true) by (apply not_ltb_leb; auto).
      assert (B : (zoom <=? 14) = true) by (apply not_ltb_leb; auto).
      destruct (classify zoom); auto using leb_refl.
Qed.

Lemma truthy_throughJson (n : number) :
  isFinite n = true -> truthy (throughJson (VNum n)) = truthy (VNum n).
Proof.
  intros F. unfold throughJson. rewrite F. destruct (n =? 0) eqn:Z; cbn.
  - now rewrite Z, orb_true_r.
  - reflexivity.
Qed.

Lemma throughJson_truthy (n : number) :
  isFinite n = true -> truthy (VNum n) = true -> throughJson (VNum n) = VNum n.
Proof.
  intros F T. unfold throughJson. rewrite F. cbn in T.
  destruct (n =? 0); [|reflexivity].
  now rewrite orb_true_r in T.
Qed.

Lemma shown_through_json (b : Brewery) (n1 n2 : number) :
  latitude b = VNum n1 -> longitude b = VNum n2 ->
  isFinite n1 = true -> isFinite n2 = true ->
  hasCoords (breweryThroughJson b) = hasCoords b /\
  (hasCoords b = true -> withNumbers (breweryThroughJson b) = b).
Proof.
  intros Hlat Hlon F1 F2.
  rewrite !hasCoords_both_truthy.
  cbn [breweryThroughJson latitude longitude]. rewrite Hlat, Hlon.
  rewrite (truthy_throughJson F1), (truthy_throughJson F2).
  split; [reflexivity|].
  intros [T1 T2]%andb_prop.
  unfold withNumbers. cbn [breweryThroughJson latitude longitude id name
    brewery_type address_1 city state_province website_url].
  rewrite Hlat, Hlon, (throughJson_truthy F1 T1), (throughJson_truthy F2 T2).
  cbn [Number]. destruct b. cbn in *. now subst.
Qed.

(** X16: records with numeric coordinates come out of the round trip
    unchanged.  For records whose latitude and longitude are finite numbers
    (every record of a radius-filtered response whose numbers came from
    JSON), sending them as JSON and normalising them on the client keeps
    each record as it was and in order, and leaves out precisely those with
    a zero latitude or longitude. *)
Theorem X16_numeric_records_reach_the_map (l : list Brewery) :
  Forall (fun b => exists n1 n2,
              latitude b = VNum n1 /\ longitude b = VNum n2 /\
              isFinite n1 = true /\ isFinite n2 = true) l ->
  breweriesWithCoords (map breweryThroughJson l) = filter hasCoords l /\
  Subseq (breweriesWithCoords (map breweryThroughJson l)) l.
Proof.
  intros H.
  assert (E : breweriesWithCoords (map breweryThroughJson l) = filter hasCoords l).
  { induction H as [|b l (n1 & n2 & Hlat & Hlon & F1 & F2) _ IH]; [reflexivity|].
    destruct (shown_through_json b Hlat Hlon F1 F2) as [Hc Hw].
    unfold breweriesWithCoords in *. cbn. rewrite Hc.
    destruct (hasCoords b) eqn:C; cbn; [|exact IH].
    now rewrite IH, (Hw eq_refl). }
  split; [exact E|]. rewrite E. apply filter_Subseq.
Qed.

(** X17: the client's filter tests truthiness, not numbers.  A record
    whose latitude is a non-empty string and whose longitude is truthy is
    kept, at its place, with [Number] of the string as latitude; when the
    engine reads the string as NaN, the point handed to the map has a NaN
    latitude. *)
Theorem X17_text_latitude_is_kept
        (pre post : list Brewery) (b : Brewery) (s1 : string) :
  latitude b = VStr s1 -> truthy_string s1 = true ->
  truthy (longitude b) = true ->
  breweriesWithCoords (pre ++ b :: post)
  = breweriesWithCoords pre ++ withNumbers b :: breweriesWithCoords post /\
  latitude (withNumbers b) = VNum (Number_of_string s1) /\
  (isNaN (Number_of_string s1) = true ->
   isNaN (fst (latLng (withNumbers b))) = true).
Proof.
  intros Hlat T1 T2.
  assert (C : hasCoords b = true)
    by (rewrite hasCoords_both_truthy, Hlat; cbn; now rewrite T1, T2).
  split; [|split].
  - rewrite breweriesWithCoords_app. f_equal.
    unfold breweriesWithCoords. cbn. now rewrite C.
  - cbn. now rewrite Hlat.
  - cbn. now rewrite Hlat.
Qed.

End ClientMap.

(** X15, witnessed: the map at zoom 12, the initial one. *)
Lemma X15_witness :
  exists z,
    Client.flyTo (Some (39.7392, -104.9903)) 12 = Some ((39.7392, -104.9903), z) /\
    (z = 12 \/ z = 14) /\ le 14 z = true /\ le 12 z = true.
Proof.
  exact (proj2 (@X15_selection_never_zooms_out (39.7392, -104.9903) 12 eq_refl)).
Defined.

(** X16, witnessed: Denver, a brewery on the equator and Los Angeles. *)
Lemma X16_witness :
  MapView.breweriesWithCoords (RT := Ref.runtime)
    (map Client.breweryThroughJson
         [Scenario.denver; Scenario.equator; Scenario.losAngeles])
  = filter MapView.hasCoords
           [Scenario.denver; Scenario.equator; Scenario.losAngeles].
Proof.
  refine (proj1 (@X16_numeric_records_reach_the_map Ref.runtime
                   [Scenario.denver; Scenario.equator; Scenario.losAngeles] _)).
  repeat constructor; do 2 eexists; repeat split; reflexivity.
Defined.

(** X17, witnessed: a latitude reading "north". *)
Lemma X17_witness :
  MapView.breweriesWithCoords (RT := Ref.runtime)
    ([Scenario.denver] ++ Cases.scribbled :: [Scenario.losAngeles])
  = MapView.breweriesWithCoords (RT := Ref.runtime) [Scenario.denver]
    ++ MapView.withNumbers (RT := Ref.runtime) Cases.scribbled
       :: MapView.breweriesWithCoords (RT := Ref.runtime) [Scenario.losAngeles] /\
  isNaN (fst (Client.latLng (RT := Ref.runtime)
                (MapView.withNumbers (RT := Ref.runtime) Cases.scribbled))) = true.
Proof.
  pose proof (@X17_text_latitude_is_kept Ref.runtime [Scenario.denver]
                [Scenario.losAngeles] Cases.scribbled "north"
                eq_refl eq_refl eq_refl) as (H1 & _ & H3).
  exact (conj H1 (H3 eq_refl)).
Defined.

(** ** No clamp: NaN near the antipodes *)

Section Unclamped.



Context {RT : Runtime}.
Import Route.


End Unclamped.



